(** * Price consumer (Task3-Price-consumer): a shallow embedding

    The ingestion pipeline of the repository -- [normalizer.py],
    [validator.py], [db.py] and the batch path of [consumer.py] -- is
    embedded as Rocq functions over a model of the Python values that the
    code manipulates.  Python exceptions are the [Raise] results of [res];
    the process state (database, dead-letter queue, log, counters, clock)
    is threaded explicitly. *)

From Stdlib Require Import String Ascii.
From Stdlib Require Import List ZArith NArith Lia Bool SpecFloat.
Import ListNotations.

Set Default Goal Selector "!".
Set Warnings "-register-all".

(** ** Python strings

    A Python [str] is a sequence of Unicode code points. *)

Definition pystr := list N.

(** Embedding of an ASCII literal. *)
Definition U (s : string) : pystr :=
  map N_of_ascii (list_ascii_of_string s).

Fixpoint pystr_eqb (a b : pystr) : bool :=
  match a, b with
  | [], [] => true
  | x :: a', y :: b' => N.eqb x y && pystr_eqb a' b'
  | _, _ => false
  end.

(** [str.isspace] on one code point: the whitespace set of CPython. *)
Definition is_space (c : N) : bool :=
  ((9 <=? c) && (c <=? 13) || (28 <=? c) && (c <=? 32) || (c =? 133)
   || (c =? 160) || (c =? 5760) || (8192 <=? c) && (c <=? 8202)
   || (c =? 8232) || (c =? 8233) || (c =? 8239) || (c =? 8287)
   || (c =? 12288))%N.

Fixpoint drop_while (p : N -> bool) (s : pystr) : pystr :=
  match s with
  | [] => []
  | c :: tl => if p c then drop_while p tl else s
  end.

(** [s.lstrip()], [s.rstrip()], [s.strip()] *)
Definition lstrip (s : pystr) : pystr := drop_while is_space s.
Definition rstrip (s : pystr) : pystr := rev (drop_while is_space (rev s)).
Definition strip (s : pystr) : pystr := rstrip (lstrip s).

(** [s.lstrip(c)] for a one-character argument. *)
Definition lstrip_char (c : N) (s : pystr) : pystr := drop_while (N.eqb c) s.

Fixpoint startswith (p s : pystr) : bool :=
  match p, s with
  | [], _ => true
  | x :: p', y :: s' => N.eqb x y && startswith p' s'
  | _ :: _, [] => false
  end.

(** [s.endswith(p)] *)
Definition endswith (p s : pystr) : bool := startswith (rev p) (rev s).

(** [old.join(parts)] *)
Fixpoint join (sep : pystr) (parts : list pystr) : pystr :=
  match parts with
  | [] => []
  | [p] => p
  | p :: rest => p ++ sep ++ join sep rest
  end.

(** [s.replace(old, new)] for a non-empty [old]: the occurrences are found
    from the left and do not overlap.  [skip] counts the characters of a
    match that are still to be dropped. *)
Fixpoint replace_from (old new : pystr) (skip : nat) (s : pystr) : pystr :=
  match s with
  | [] => []
  | c :: tl =>
      match skip with
      | S k => replace_from old new k tl
      | O => if startswith old s
             then new ++ replace_from old new (length old - 1) tl
             else c :: replace_from old new 0 tl
      end
  end.

Definition replace (old new s : pystr) : pystr := replace_from old new 0 s.

(** Decimal rendering of a natural number, as [str(n)] and [f"{n}"] give. *)
Definition digit_char (d : N) : N := (48 + d)%N.

Fixpoint dec_digits (fuel : nat) (n : N) (acc : pystr) : pystr :=
  match fuel with
  | O => acc
  | S f =>
      let acc' := digit_char (n mod 10) :: acc in
      if (n <? 10)%N then acc' else dec_digits f (n / 10) acc'
  end.

Definition str_of_N (n : N) : pystr := dec_digits (S (N.to_nat (N.log2 n))) n [].
Definition str_of_nat (n : nat) : pystr := str_of_N (N.of_nat n).

Definition str_of_Z (z : Z) : pystr :=
  match z with
  | Zneg p => 45%N :: str_of_N (Npos p)
  | _ => str_of_N (Z.to_N z)
  end.

(** ** Python values and exceptions *)

(** Python floats are IEEE-754 binary64 numbers. *)
Definition pyfloat := spec_float.
Definition f_zero : pyfloat := S754_zero false.
Definition f_one : pyfloat := S754_finite false 4503599627370496 (-52).

(** The values a decoded JSON document is made of.  A [dict] keeps its
    entries in insertion order. *)
Inductive pyval : Type :=
| PNone
| PBool (b : bool)
| PInt (n : Z)
| PFloat (f : pyfloat)
| PStr (s : pystr)
| PList (l : list pyval)
| PDict (d : list (pystr * pyval)).

Definition pydict := list (pystr * pyval).

Inductive exc_class : Type :=
| AttributeError | TypeError | ValueError | KeyError | OverflowError
| JSONDecodeError | RuntimeError | DatabaseError | InterfaceError.

(** An exception: its class and the text [str(e)] gives. *)
Record exc : Type := mkExc { exc_cls : exc_class; exc_msg : pystr }.

Inductive res (A : Type) : Type :=
| Ok (a : A)
| Raise (e : exc).
Arguments Ok {A} a.
Arguments Raise {A} e.

Definition rbind {A B} (r : res A) (k : A -> res B) : res B :=
  match r with
  | Ok a => k a
  | Raise e => Raise e
  end.

Declare Scope res_scope.
Delimit Scope res_scope with res.
Notation "x <- c ;; k" := (rbind c (fun x => k))
  (at level 61, c at next level, right associativity) : res_scope.

Definition is_ok {A} (r : res A) : bool :=
  match r with Ok _ => true | Raise _ => false end.

(** [type(v).__name__] *)
Definition type_name (v : pyval) : pystr :=
  match v with
  | PNone => U "NoneType"
  | PBool _ => U "bool"
  | PInt _ => U "int"
  | PFloat _ => U "float"
  | PStr _ => U "str"
  | PList _ => U "list"
  | PDict _ => U "dict"
  end.

Definition no_attribute (v : pyval) (attr : string) : exc :=
  mkExc AttributeError
    (U "'" ++ type_name v ++ U "' object has no attribute '" ++ U attr ++ U "'").

Fixpoint dict_lookup (k : pystr) (d : pydict) : option pyval :=
  match d with
  | [] => None
  | (k', v) :: tl => if pystr_eqb k k' then Some v else dict_lookup k tl
  end.

(** [d.get(k)] *)
Definition dict_get (k : string) (d : pydict) : pyval :=
  match dict_lookup (U k) d with
  | Some v => v
  | None => PNone
  end.

(** [d.get(k, dflt)] *)
Definition dict_get_default (k : string) (dflt : pyval) (d : pydict) : pyval :=
  match dict_lookup (U k) d with
  | Some v => v
  | None => dflt
  end.

(** [d[k]] *)
Definition dict_item (k : string) (d : pydict) : res pyval :=
  match dict_lookup (U k) d with
  | Some v => Ok v
  | None => Raise (mkExc KeyError (U "'" ++ U k ++ U "'"))
  end.

(** [d[k] = v] *)
Fixpoint dict_set (k : pystr) (v : pyval) (d : pydict) : pydict :=
  match d with
  | [] => [(k, v)]
  | (k', v') :: tl =>
      if pystr_eqb k k' then (k', v) :: tl else (k', v') :: dict_set k v tl
  end.

(** [{**d, **labels}] *)
Definition dict_update (d labels : pydict) : pydict :=
  fold_left (fun acc kv => dict_set (fst kv) (snd kv) acc) labels d.

(** [v.get(k)] on an arbitrary value: only a dict has [get]. *)
Definition py_get (k : string) (v : pyval) : res pyval :=
  match v with
  | PDict d => Ok (dict_get k d)
  | _ => Raise (no_attribute v "get")
  end.

(** ** Floats *)

Definition f_lt (a b : pyfloat) : bool := SFltb a b.
Definition f_le (a b : pyfloat) : bool := SFleb a b.
Definition f_is_nan (f : pyfloat) : bool :=
  match f with
  | S754_nan => true
  | _ => false
  end.

(** [float(n)] for an [int]: round to nearest even, [OverflowError] beyond
    the binary64 range. *)
Definition float_of_Z (n : Z) : res pyfloat :=
  match binary_normalize 53 1024 n 0 false with
  | S754_infinity _ =>
      Raise (mkExc OverflowError (U "int too large to convert to float"))
  | f => Ok f
  end.


(** [v[k]] for a string key: only a dict is indexed by a string. *)
Definition py_item (k : string) (v : pyval) : res pyval :=
  match v with
  | PDict d => dict_item k d
  | PList _ =>
      Raise (mkExc TypeError (U "list indices must be integers or slices, not str"))
  | PStr _ => Raise (mkExc TypeError (U "string indices must be integers"))
  | _ => Raise (mkExc TypeError
                  (U "'" ++ type_name v ++ U "' object is not subscriptable"))
  end.

(** The items a [for] loop over [v] visits: the elements of a list, the
    characters of a string, the keys of a dict. *)
Definition py_iter (v : pyval) : res (list pyval) :=
  match v with
  | PList l => Ok l
  | PStr s => Ok (map (fun c => PStr [c]) s)
  | PDict d => Ok (map (fun kv => PStr (fst kv)) d)
  | _ => Raise (mkExc TypeError
                  (U "'" ++ type_name v ++ U "' object is not iterable"))
  end.

Fixpoint map_res {A B} (f : A -> res B) (l : list A) : res (list B) :=
  match l with
  | [] => Ok []
  | x :: tl =>
      (y <- f x ;;
       ys <- map_res f tl ;;
       Ok (y :: ys))%res
  end.

(** * The [datetime] module

    The part of Python's [datetime] that [normalizer.py] uses: aware and
    naive date-times with microsecond resolution, [astimezone] to UTC and
    [isoformat]. *)

Module datetime.
Local Open Scope Z_scope.

Record t : Type := mk {
  year : Z; month : Z; day : Z;
  hour : Z; minute : Z; second : Z; microsecond : Z;
  (** [utcoffset()] in microseconds, [None] for a naive value *)
  tzoffset : option Z
}.

Definition MAXORDINAL : Z := 3652059.
Definition US_PER_SECOND : Z := 1000000.
Definition US_PER_DAY : Z := 86400 * US_PER_SECOND.

Definition is_leap (y : Z) : bool :=
  ((y mod 4 =? 0) && (negb (y mod 100 =? 0) || (y mod 400 =? 0)))%Z.

Definition days_in_month (y m : Z) : Z :=
  if (m =? 2)%Z then (if is_leap y then 29 else 28)
  else if ((m =? 4) || (m =? 6) || (m =? 9) || (m =? 11))%Z then 30
  else 31.

Definition days_before_year (y : Z) : Z :=
  let p := (y - 1)%Z in (p * 365 + p / 4 - p / 100 + p / 400)%Z.

Definition days_before_month_common (m : Z) : Z :=
  nth (Z.to_nat m) [0; 0; 31; 59; 90; 120; 151; 181; 212; 243; 273; 304; 334] 0.

Definition days_before_month (y m : Z) : Z :=
  (days_before_month_common m + (if (2 <? m)%Z && is_leap y then 1 else 0))%Z.

(** [_ymd2ord]: 0001-01-01 is day 1. *)
Definition ymd2ord (y m d : Z) : Z :=
  (days_before_year y + days_before_month y m + d)%Z.

Definition DI400Y : Z := 146097.
Definition DI100Y : Z := 36524.
Definition DI4Y : Z := 1461.

(** [_ord2ymd] *)
Definition ord2ymd (n : Z) : Z * Z * Z :=
  let n := (n - 1)%Z in
  let n400 := (n / DI400Y)%Z in let n := (n mod DI400Y)%Z in
  let y := (n400 * 400 + 1)%Z in
  let n100 := (n / DI100Y)%Z in let n := (n mod DI100Y)%Z in
  let n4 := (n / DI4Y)%Z in let n := (n mod DI4Y)%Z in
  let n1 := (n / 365)%Z in let n := (n mod 365)%Z in
  let y := (y + n100 * 100 + n4 * 4 + n1)%Z in
  if ((n1 =? 4) || (n100 =? 4))%Z then ((y - 1)%Z, 12%Z, 31%Z)
  else
    let leapyear := ((n1 =? 3) && (negb (n4 =? 24) || (n100 =? 3)))%Z in
    let m := Z.shiftr (n + 50) 5 in
    let preceding :=
      (days_before_month_common m + (if (2 <? m)%Z && leapyear then 1 else 0))%Z in
    if (n <? preceding)%Z then
      let m' := (m - 1)%Z in
      let dim := if ((m' =? 2)%Z && leapyear)%bool then 29%Z
                 else days_in_month 1 m' in
      (y, m', (n - (preceding - dim) + 1)%Z)
    else (y, m, (n - preceding + 1)%Z).

(** The class invariant of [datetime] objects. *)
Definition valid (d : t) : bool :=
  ((1 <=? year d) && (year d <=? 9999) && (1 <=? month d) && (month d <=? 12)
   && (1 <=? day d) && (day d <=? days_in_month (year d) (month d))
   && (0 <=? hour d) && (hour d <? 24) && (0 <=? minute d) && (minute d <? 60)
   && (0 <=? second d) && (second d <? 60)
   && (0 <=? microsecond d) && (microsecond d <? US_PER_SECOND)
   && match tzoffset d with
      | None => true
      | Some off => (- US_PER_DAY <? off) && (off <? US_PER_DAY)
      end)%Z.

(** Microseconds from the start of day 0 to the local fields of [d]. *)
Definition to_us (d : t) : Z :=
  (((ymd2ord (year d) (month d) (day d) * 86400
     + hour d * 3600 + minute d * 60 + second d) * US_PER_SECOND)
   + microsecond d)%Z.

(** [d - timedelta(microseconds=off)], keeping [tzinfo]. *)
Definition sub_us (d : t) (off : Z) : res t :=
  let total := (to_us d - off)%Z in
  let days := (total / US_PER_DAY)%Z in
  let rem := (total mod US_PER_DAY)%Z in
  if ((0 <? days) && (days <=? MAXORDINAL))%Z then
    let '(y, m, dd) := ord2ymd days in
    let secs := (rem / US_PER_SECOND)%Z in
    Ok (mk y m dd (secs / 3600) ((secs mod 3600) / 60) (secs mod 60)
           (rem mod US_PER_SECOND) (tzoffset d))
  else Raise (mkExc OverflowError (U "date value out of range")).

(** [d.replace(tzinfo=timezone.utc)] *)
Definition replace_tzinfo_utc (d : t) : t :=
  mk (year d) (month d) (day d) (hour d) (minute d) (second d)
     (microsecond d) (Some 0%Z).

(** [d.astimezone(timezone.utc)].  A value whose [tzinfo] is already
    [timezone.utc] is returned as it is; a naive value is taken to be in
    the host's local time, whose offset [local_off] gives. *)
Definition astimezone_utc (local_off : Z -> Z) (d : t) : res t :=
  match tzoffset d with
  | Some 0%Z => Ok d
  | Some off =>
      (u <- sub_us d off ;; Ok (replace_tzinfo_utc u))%res
  | None =>
      (u <- sub_us d (local_off (to_us d - US_PER_DAY)) ;;
       Ok (replace_tzinfo_utc u))%res
  end.

(** ["%0<w>d" % n] *)
Definition pad (w : nat) (n : Z) : pystr :=
  match n with
  | Zneg p =>
      let s := str_of_N (Npos p) in
      45%N :: repeat 48%N (w - 1 - length s)%nat ++ s
  | _ =>
      let s := str_of_N (Z.to_N n) in
      repeat 48%N (w - length s)%nat ++ s
  end.

(** [_format_offset] *)
Definition format_offset (off : option Z) : pystr :=
  match off with
  | None => []
  | Some o =>
      let sign := if (o <? 0)%Z then U "-" else U "+" in
      let a := Z.abs o in
      let hh := (a / (3600 * US_PER_SECOND))%Z in
      let r := (a mod (3600 * US_PER_SECOND))%Z in
      let mm := (r / (60 * US_PER_SECOND))%Z in
      let ss := (r mod (60 * US_PER_SECOND))%Z in
      sign ++ pad 2 hh ++ U ":" ++ pad 2 mm
        ++ (if (ss =? 0)%Z then []
            else U ":" ++ pad 2 (ss / US_PER_SECOND)
                   ++ (if (ss mod US_PER_SECOND =? 0)%Z then []
                       else U "." ++ pad 6 (ss mod US_PER_SECOND)))
  end.

(** The date and the time of [d.isoformat()], without the offset. *)
Definition naive_text (d : t) : pystr :=
  pad 4 (year d) ++ U "-" ++ pad 2 (month d) ++ U "-" ++ pad 2 (day d)
    ++ U "T" ++ pad 2 (hour d) ++ U ":" ++ pad 2 (minute d) ++ U ":"
    ++ pad 2 (second d)
    ++ (if (microsecond d =? 0)%Z then [] else U "." ++ pad 6 (microsecond d)).

(** [d.isoformat()] *)
Definition isoformat (d : t) : pystr :=
  naive_text d ++ format_offset (tzoffset d).

(** The text of a UTC date-time with the suffix [Z]. *)
Definition utc_text (d : t) : pystr := naive_text d ++ U "Z".

End datetime.

(** ** The runtime library

    Library functions of the Python runtime, of the PostgreSQL server and of
    the host that the consumer calls and the repository does not define.
    The development is parametric in them; [fromisoformat_isoformat] is the
    documented contract of [datetime.fromisoformat], the inverse of
    [isoformat]. *)

Class Runtime : Type := {
  (** [s.lower()], the Unicode lower-casing *)
  str_lower : pystr -> pystr;
  (** [float(s)] on a string: [None] is [ValueError] *)
  float_of_str : pystr -> option pyfloat;
  (** [str(v)] for a float, a list or a dict *)
  str_of_other : pyval -> pystr;
  (** [repr(s)] for a string *)
  str_repr : pystr -> pystr;
  (** [json.loads] and [json.dumps] *)
  json_loads : pystr -> res pyval;
  json_dumps : pyval -> pystr;
  (** [datetime.fromisoformat]: [None] is [ValueError], whose text is
      [fromisoformat_error] of the string *)
  fromisoformat : pystr -> option datetime.t;
  fromisoformat_error : pystr -> pystr;
  fromisoformat_isoformat :
    forall d : datetime.t,
      datetime.valid d = true -> datetime.tzoffset d = Some 0%Z ->
      fromisoformat (datetime.isoformat d) = Some d;
  (** UTC offset, in microseconds, of the host's time zone at a naive
      local time given in microseconds since 0001-01-01T00:00:00 *)
  local_utcoffset : Z -> Z;
  (** the values PostgreSQL stores in a [numeric] column *)
  sql_numeric : Type;
  (** input conversion of a non-null statement parameter for a [text], a
      [numeric] and a [timestamptz] column: the stored value, or [None]
      when the server rejects the parameter *)
  pg_text_in : pyval -> option pystr;
  pg_numeric_in : pyval -> option sql_numeric;
  pg_timestamptz_in : pyval -> option Z
}.

Section Values.
Context {rt : Runtime}.

(** [float(v)] *)
Definition py_float (v : pyval) : res pyfloat :=
  match v with
  | PBool b => Ok (if b then f_one else f_zero)
  | PInt n => float_of_Z n
  | PFloat f => Ok f
  | PStr s =>
      match float_of_str s with
      | Some f => Ok f
      | None => Raise (mkExc ValueError
                         (U "could not convert string to float: " ++ str_repr s))
      end
  | _ => Raise (mkExc TypeError
                  (U "float() argument must be a string or a real number, not '"
                     ++ type_name v ++ U "'"))
  end.

(** [str(v)] *)
Definition py_str (v : pyval) : pystr :=
  match v with
  | PNone => U "None"
  | PBool true => U "True"
  | PBool false => U "False"
  | PInt n => str_of_Z n
  | PStr s => s
  | _ => str_of_other v
  end.

End Values.

(** ** Process environment

    The environment variables the modules read when they are imported. *)

Record environ : Type := {
  env_DEFAULT_UNIT : option pystr;
  env_DEFAULT_BRANCH : option pystr;
  (** [os.getenv("QUEUE_PROVIDER", "sqs").lower()] *)
  QUEUE_PROVIDER : pystr;
  DLQ_URL : option pystr;
  env_DB_HOST : option pystr;
  env_DB_NAME : option pystr;
  env_DB_USER : option pystr;
  env_DB_PASSWORD : option pystr
}.

Definition getenv_default (v : option pystr) (dflt : string) : pystr :=
  match v with
  | Some s => s
  | None => U dflt
  end.

(** * validator.py *)

Module validator.
Section WithRuntime.
Context {rt : Runtime}.

Definition ALLOWED_TYPES : list pystr := [U "pricesFull"; U "promoFull"].

(** [_err(msgs)] *)
Definition _err (msgs : list pystr) : res unit :=
  match msgs with
  | [] => Ok tt
  | _ => Raise (mkExc ValueError (join (U "; ") msgs))
  end.

(** [not isinstance(v, str) or len(v.strip()) < 1] *)
Definition too_short (v : pyval) : bool :=
  match v with
  | PStr s => (length (strip s) <? 1)%nat
  | _ => true
  end.

(** [v not in ALLOWED_TYPES]: membership in a set hashes [v], and a list or
    a dict is unhashable. *)
Definition not_in_ALLOWED_TYPES (v : pyval) : res bool :=
  match v with
  | PList _ => Raise (mkExc TypeError (U "unhashable type: 'list'"))
  | PDict _ => Raise (mkExc TypeError (U "unhashable type: 'dict'"))
  | PStr s => Ok (negb (existsb (pystr_eqb s) ALLOWED_TYPES))
  | _ => Ok true
  end.

(** [not isinstance(ts, str) or not ts.endswith("Z")] *)
Definition bad_timestamp (v : pyval) : bool :=
  match v with
  | PStr s => negb (endswith (U "Z") s)
  | _ => true
  end.

Definition item_msg (i : nat) (what : string) : pystr :=
  U "item[" ++ str_of_nat i ++ U "]" ++ U what.

(** The body of the loop [for i, it in enumerate(items)]: the messages it
    appends for item [i]. *)
Definition check_item (i : nat) (it : pyval) : list pystr :=
  match it with
  | PDict d =>
      (if too_short (dict_get "product" d)
       then [item_msg i ".product is too short"] else [])
      ++ (if too_short (dict_get "unit" d)
          then [item_msg i ".unit is too short"] else [])
      ++ match py_float (dict_get "price" d) with
         | Ok price =>
             if f_lt price f_zero
             then [item_msg i ".price must be >= 0"] else []
         | Raise _ => [item_msg i ".price must be a number"]
         end
  | _ => [item_msg i " must be an object"]
  end.

Fixpoint check_items (i : nat) (items : list pyval) : list pystr :=
  match items with
  | [] => []
  | it :: tl => check_item i it ++ check_items (S i) tl
  end.

Definition type_msg : pystr :=
  U "'type' must be one of ['pricesFull', 'promoFull']".

Definition items_msg : pystr := U "'items' must be a non-empty array".

(** [validate_doc(doc)] *)
Definition validate_doc (doc : pyval) : res unit :=
  (let msgs := match doc with
               | PDict _ => []
               | _ => [U "document must be an object"]
               end in
   provider <- py_get "provider" doc ;;
   let msgs := msgs ++ (if too_short provider
                        then [U "'provider' is too short"] else []) in
   branch <- py_get "branch" doc ;;
   let msgs := msgs ++ (if too_short branch
                        then [U "'branch' is too short"] else []) in
   doc_type <- py_get "type" doc ;;
   bad_type <- not_in_ALLOWED_TYPES doc_type ;;
   let msgs := msgs ++ (if bad_type then [type_msg] else []) in
   ts <- py_get "timestamp" doc ;;
   let msgs := msgs ++ (if bad_timestamp ts
                        then [U "'timestamp' must be ISO8601 UTC with Z suffix"]
                        else []) in
   items <- py_get "items" doc ;;
   let msgs := msgs ++ match items with
                       | PList ((_ :: _) as l) => check_items 0 l
                       | _ => [items_msg]
                       end in
   _err msgs)%res.

(** One iteration of the loop of [doc_to_rows]: the row dict of item [it]. *)
Definition row_of (doc it : pyval) : res pyval :=
  (provider <- py_item "provider" doc ;;
   branch <- py_item "branch" doc ;;
   doc_type <- py_item "type" doc ;;
   ts <- py_item "timestamp" doc ;;
   product <- py_item "product" it ;;
   unit_ <- py_item "unit" it ;;
   raw_price <- py_item "price" it ;;
   price <- py_float raw_price ;;
   src_key <- py_get "src_key" doc ;;
   etag <- py_get "etag" doc ;;
   Ok (PDict [(U "provider", provider); (U "branch", branch);
              (U "doc_type", doc_type); (U "ts", ts);
              (U "product", product); (U "unit", unit_);
              (U "price", PFloat price);
              (U "src_key", src_key); (U "etag", etag)]))%res.

(** [doc_to_rows(doc)] *)
Definition doc_to_rows (doc : pyval) : res (list pyval) :=
  (items <- py_item "items" doc ;;
   its <- py_iter items ;;
   map_res (row_of doc) its)%res.

End WithRuntime.
End validator.

(** * normalizer.py *)

Module normalizer.
Section WithRuntime.
Context {rt : Runtime} (env : environ).

Definition DEFAULT_UNIT : pystr := getenv_default (env_DEFAULT_UNIT env) "unit".
Definition DEFAULT_BRANCH : pystr :=
  strip (getenv_default (env_DEFAULT_BRANCH env) "default").
Definition ALLOWED_TYPES : list pystr := [U "pricesFull"; U "promoFull"].

Definition parse_iso (s : pystr) : res datetime.t :=
  match fromisoformat s with
  | Some d => Ok d
  | None => Raise (mkExc ValueError (fromisoformat_error s))
  end.

(** [_to_utc_z(ts)] *)
Definition _to_utc_z (ts : pystr) : res pystr :=
  (let s := strip ts in
   dt <- (if endswith (U "Z") s
          then parse_iso (replace (U "Z") (U "+00:00") s)
          else parse_iso s) ;;
   utc <- datetime.astimezone_utc local_utcoffset dt ;;
   Ok (replace (U "+00:00") (U "Z") (datetime.isoformat utc)))%res.

(** [_norm_text(v)] *)
Definition _norm_text (v : pyval) : pystr :=
  strip (match v with PNone => [] | _ => py_str v end).

(** [_norm_price(v)] *)
Definition _norm_price (v : pyval) : pyfloat :=
  match py_float v with
  | Ok f => f
  | Raise _ => f_zero
  end.

(** [_canon_type(t)] *)
Definition _canon_type (t : pystr) : pystr :=
  let t := strip t in
  if existsb (pystr_eqb t) ALLOWED_TYPES then t else U "pricesFull".

(** [a or b] on strings: the empty string is false. *)
Definition str_or (a b : pystr) : pystr :=
  match a with
  | [] => b
  | _ => a
  end.

(** One iteration of the loop over the items. *)
Definition norm_item (it : pyval) : res pyval :=
  (product <- py_get "product" it ;;
   unit_ <- py_get "unit" it ;;
   price <- py_get "price" it ;;
   Ok (PDict [(U "product", PStr (_norm_text product));
              (U "unit", PStr (str_or (_norm_text unit_) DEFAULT_UNIT));
              (U "price", PFloat (_norm_price price))]))%res.

(** [msg.get("items", [])] *)
Definition get_items (msg : pyval) : res pyval :=
  match msg with
  | PDict d => Ok (dict_get_default "items" (PList []) d)
  | _ => Raise (no_attribute msg "get")
  end.

(** [normalize_message(msg)].  [now] is the value [datetime.utcnow()] has
    when the message is normalized; it is read only for a message without
    a timestamp. *)
Definition normalize_message (now : datetime.t) (msg : pyval) : res pyval :=
  (v <- py_get "provider" msg ;;
   let provider := str_lower (_norm_text v) in
   v <- py_get "branch" msg ;;
   let branch := str_or (_norm_text v) DEFAULT_BRANCH in
   v <- py_get "type" msg ;;
   let doc_type := _canon_type (_norm_text v) in
   v <- py_get "timestamp" msg ;;
   let raw_ts :=
     str_or (_norm_text v)
            (datetime.isoformat (datetime.replace_tzinfo_utc now)) in
   ts <- _to_utc_z raw_ts ;;
   src <- get_items msg ;;
   its <- py_iter src ;;
   items <- map_res norm_item its ;;
   v <- py_get "src_key" msg ;;
   let src_key := _norm_text v in
   v <- py_get "etag" msg ;;
   let etag := _norm_text v in
   Ok (PDict [(U "provider", PStr provider); (U "branch", PStr branch);
              (U "type", PStr doc_type); (U "timestamp", PStr ts);
              (U "items", PList items);
              (U "src_key", PStr src_key); (U "etag", PStr etag)]))%res.

End WithRuntime.
End normalizer.

(** * db.py

    The table [price_items] is a list of rows, in physical order.  A
    connection holds the state of its open transaction: the table as the
    transaction sees it and the value of [NOW()], which PostgreSQL fixes at
    the start of the transaction. *)

Module db.
Section WithRuntime.
Context {rt : Runtime}.

Record row : Type := mkRow {
  provider : pystr; branch : pystr; doc_type : pystr; ts : Z; product : pystr;
  unit_ : pystr; price : sql_numeric;
  src_key : option pystr; etag : option pystr;
  updated_at : Z
}.

Definition table := list row.

(** The natural key, the primary key of the table. *)
Definition key : Type := pystr * pystr * pystr * Z * pystr.

Definition key_of (r : row) : key :=
  (provider r, branch r, doc_type r, ts r, product r).

Definition key_eqb (a b : key) : bool :=
  let '(p1, b1, d1, t1, q1) := a in
  let '(p2, b2, d2, t2, q2) := b in
  pystr_eqb p1 p2 && pystr_eqb b1 b2 && pystr_eqb d1 d2 && Z.eqb t1 t2
  && pystr_eqb q1 q2.

Record conn : Type := mkConn {
  (** [NOW()] in the open transaction *)
  txn_now : Z;
  (** [price_items] as the transaction sees it; [None] when the relation
      does not exist *)
  txn_table : option table;
  (** the error the server or the link answers a statement with, if any *)
  exec_fault : option exc;
  (** the error [commit()] fails with, if any *)
  commit_fault : option exc
}.

Definition set_table (c : conn) (t : option table) : conn :=
  mkConn (txn_now c) t (exec_fault c) (commit_fault c).

Definition set_now (c : conn) (now : Z) : conn :=
  mkConn now (txn_table c) (exec_fault c) (commit_fault c).

Definition cols : list string :=
  ["provider"; "branch"; "doc_type"; "ts"; "product"; "unit"; "price";
   "src_key"; "etag"]%string.

(** The values of one [INSERT]: the excluded row, without [updated_at]. *)
Record excluded : Type := mkExcluded {
  x_key : key; x_unit : pystr; x_price : sql_numeric;
  x_src_key : option pystr; x_etag : option pystr
}.

Definition db_error (what : string) : exc := mkExc DatabaseError (U what).

(** A parameter for a [NOT NULL] column. *)
Definition not_null {A} (conv : pyval -> option A) (col : string) (v : pyval)
  : res A :=
  match v with
  | PNone => Raise (db_error ("null value violates not-null constraint: " ++ col))
  | _ => match conv v with
         | Some a => Ok a
         | None => Raise (db_error ("invalid input for column: " ++ col))
         end
  end.

(** A parameter for a nullable [text] column. *)
Definition nullable (col : string) (v : pyval) : res (option pystr) :=
  match v with
  | PNone => Ok None
  | _ => match pg_text_in v with
         | Some a => Ok (Some a)
         | None => Raise (db_error ("invalid input for column: " ++ col))
         end
  end.

(** The server's reading of the nine parameters of the statement. *)
Definition bind_params (p : list pyval) : res excluded :=
  match p with
  | [v1; v2; v3; v4; v5; v6; v7; v8; v9] =>
      (a1 <- not_null pg_text_in "provider" v1 ;;
       a2 <- not_null pg_text_in "branch" v2 ;;
       a3 <- not_null pg_text_in "doc_type" v3 ;;
       a4 <- not_null pg_timestamptz_in "ts" v4 ;;
       a5 <- not_null pg_text_in "product" v5 ;;
       a6 <- not_null pg_text_in "unit" v6 ;;
       a7 <- not_null pg_numeric_in "price" v7 ;;
       a8 <- nullable "src_key" v8 ;;
       a9 <- nullable "etag" v9 ;;
       Ok (mkExcluded (a1, a2, a3, a4, a5) a6 a7 a8 a9))%res
  | _ => Raise (db_error "wrong number of parameters")
  end.

(** [DO UPDATE SET unit = EXCLUDED.unit, price = EXCLUDED.price,
    src_key = EXCLUDED.src_key, etag = EXCLUDED.etag, updated_at = NOW()] *)
Definition do_update (now : Z) (x : excluded) (r : row) : row :=
  mkRow (provider r) (branch r) (doc_type r) (ts r) (product r)
        (x_unit x) (x_price x) (x_src_key x) (x_etag x) now.

(** The row an [INSERT] without conflict adds; [updated_at] takes its
    default, [NOW()]. *)
Definition inserted (now : Z) (x : excluded) : row :=
  let '(p, b, d, t, q) := x_key x in
  mkRow p b d t q (x_unit x) (x_price x) (x_src_key x) (x_etag x) now.

(** [INSERT ... ON CONFLICT (provider, branch, doc_type, ts, product)
    DO UPDATE ...] for one row *)
Fixpoint upsert (now : Z) (x : excluded) (t : table) : table :=
  match t with
  | [] => [inserted now x]
  | r :: tl =>
      if key_eqb (key_of r) (x_key x) then do_update now x r :: tl
      else r :: upsert now x tl
  end.

(** [cur.execute(sql, p)] *)
Definition execute (p : list pyval) (c : conn) : res unit * conn :=
  match exec_fault c with
  | Some e => (Raise e, c)
  | None =>
      match txn_table c with
      | None => (Raise (db_error "relation price_items does not exist"), c)
      | Some t =>
          match bind_params p with
          | Ok x => (Ok tt, set_table c (Some (upsert (txn_now c) x t)))
          | Raise e => (Raise e, c)
          end
      end
  end.

(** [cur.executemany(sql, params)]: one statement per parameter tuple, up
    to the first that fails. *)
Fixpoint executemany (params : list (list pyval)) (c : conn) : res unit * conn :=
  match params with
  | [] => (Ok tt, c)
  | p :: tl =>
      match execute p c with
      | (Ok _, c') => executemany tl c'
      | (Raise e, c') => (Raise e, c')
      end
  end.

(** [tuple(r.get(k) for k in cols)] *)
Definition params_of (r : pyval) : res (list pyval) :=
  map_res (fun k => py_get k r) cols.

(** [upsert_rows(conn, rows)] *)
Definition upsert_rows (c : conn) (rows : list pyval) : res nat * conn :=
  match rows with
  | [] => (Ok 0, c)
  | _ =>
      match map_res params_of rows with
      | Raise e => (Raise e, c)
      | Ok params =>
          match executemany params c with
          | (Ok _, c') => (Ok (length params), c')
          | (Raise e, c') => (Raise e, c')
          end
      end
  end.

End WithRuntime.
End db.

(** * The process and its surroundings *)

Inductive log_level : Type := INFO | ERROR.

(** An error of the SQS client: every error that [boto3] raises is a
    [BotoCoreError] or a [ClientError]. *)
Inductive boto_error : Type :=
| BotoCoreError (msg : pystr)
| ClientError (msg : pystr).

Definition boto_msg (e : boto_error) : pystr :=
  match e with
  | BotoCoreError m => m
  | ClientError m => m
  end.

(** What [get_conn()] meets. *)
Inductive db_weather : Type :=
| DbUp (now : Z)
| DbConnectError (e : exc)
| DbExecError (now : Z) (e : exc)
| DbCommitError (now : Z) (e : exc).

(** The surroundings of the process.  Each field answers the n-th
    interaction of the process with the outside. *)
Record host : Type := {
  (** [datetime.utcnow()] *)
  utcnow : nat -> datetime.t;
  utcnow_valid : forall n, datetime.valid (utcnow n) = true;
  utcnow_naive : forall n, datetime.tzoffset (utcnow n) = None;
  (** [int((t1 - t0) * 1000)] for the values [t0] and [t1] of
      [time.time()] at two interactions *)
  elapsed_ms : nat -> nat -> Z;
  (** the state of the database server at [get_conn()] *)
  weather : nat -> db_weather;
  (** the outcome of [_sqs.send_message] for a message body *)
  sqs_send : nat -> pystr -> option boto_error
}.

Module consumer.
Section WithRuntime.
Context {rt : Runtime} (env : environ) (h : host).

(** The state of the process and of the services it writes to. *)
Record world : Type := mkWorld {
  (** the committed table [price_items]; [None] before the setup *)
  w_table : option db.table;
  (** the messages delivered to the dead-letter queue: URL and body *)
  w_dlq : list (pystr * pystr);
  (** the records handed to [logging] *)
  w_log : list (log_level * pystr);
  (** [metrics._counters] *)
  w_counters : list (pystr * Z);
  (** the number of interactions with the outside so far *)
  w_tick : nat
}.

(** Computations that read and write the world and may raise. *)
Definition M (A : Type) : Type := world -> res A * world.

Definition ret {A} (a : A) : M A := fun w => (Ok a, w).
Definition raise {A} (e : exc) : M A := fun w => (Raise e, w).
Definition bind {A B} (m : M A) (k : A -> M B) : M B :=
  fun w => match m w with
           | (Ok a, w') => k a w'
           | (Raise e, w') => (Raise e, w')
           end.
Definition lift {A} (r : res A) : M A := fun w => (r, w).

(** [try: body except Exception as e: handler(e)] *)
Definition try_except {A} (body : M A) (handler : exc -> M A) : M A :=
  fun w => match body w with
           | (Ok a, w') => (Ok a, w')
           | (Raise e, w') => handler e w'
           end.

(** [try: body finally: cleanup], for a cleanup that does not raise *)
Definition try_finally {A} (body : M A) (cleanup : world -> world) : M A :=
  fun w => let '(r, w') := body w in (r, cleanup w').

Definition tick : M nat :=
  fun w => (Ok (w_tick w),
            mkWorld (w_table w) (w_dlq w) (w_log w) (w_counters w) (S (w_tick w))).

Definition logging (lvl : log_level) (msg : pystr) : M unit :=
  fun w => (Ok tt,
            mkWorld (w_table w) (w_dlq w) (w_log w ++ [(lvl, msg)])
                    (w_counters w) (w_tick w)).

Definition set_w_table (t : option db.table) : M unit :=
  fun w => (Ok tt,
            mkWorld t (w_dlq w) (w_log w) (w_counters w) (w_tick w)).

Definition get_w_table : M (option db.table) := fun w => (Ok (w_table w), w).

Definition push_dlq (url body : pystr) : M unit :=
  fun w => (Ok tt,
            mkWorld (w_table w) (w_dlq w ++ [(url, body)]) (w_log w)
                    (w_counters w) (w_tick w)).


Declare Scope M_scope.
Delimit Scope M_scope with M.
Notation "x <- c ;; k" := (bind c (fun x => k))
  (at level 61, c at next level, right associativity) : M_scope.

(** ** metrics.py *)

Fixpoint counter_get (name : pystr) (cs : list (pystr * Z)) : Z :=
  match cs with
  | [] => 0%Z
  | (k, v) :: tl => if pystr_eqb name k then v else counter_get name tl
  end.

Fixpoint counter_set (name : pystr) (v : Z) (cs : list (pystr * Z))
  : list (pystr * Z) :=
  match cs with
  | [] => [(name, v)]
  | (k, v') :: tl =>
      if pystr_eqb name k then (k, v) :: tl else (k, v') :: counter_set name v tl
  end.

(** [metrics.incr(name, delta, **labels)] *)
Definition incr (name : string) (delta : Z) (labels : pydict) : M unit :=
  fun w =>
    let total := (counter_get (U name) (w_counters w) + delta)%Z in
    let w' := mkWorld (w_table w) (w_dlq w) (w_log w)
                      (counter_set (U name) total (w_counters w)) (w_tick w) in
    logging INFO
      (json_dumps (PDict (dict_update
                            [(U "metric", PStr (U name)); (U "delta", PInt delta);
                             (U "total", PInt total)] labels))) w'.

(** [with timer(metric, **labels): body] *)
Definition timer {A} (metric : string) (labels : pydict) (body : M A) : M A :=
  fun w =>
    let '(n0, w0) := (w_tick w, snd (tick w)) in
    let '(r, w1) := body w0 in
    let '(n1, w2) := (w_tick w1, snd (tick w1)) in
    let dur_ms := elapsed_ms h n0 n1 in
    (r, snd (incr metric dur_ms labels w2)).

(** ** consumer.py *)

(** [_incr(metric, value, **labels)]: [metrics.incr] takes labels, so the
    fallback without them is never taken. *)
Definition _incr (metric : string) (value : Z) (labels : pydict) : M unit :=
  incr metric value labels.

Definition BOM : N := 65279%N.

(** [if s and s[0] == "\ufeff": s = s.lstrip("\ufeff")] *)
Definition strip_bom (s : pystr) : pystr :=
  match s with
  | c :: _ => if N.eqb c BOM then lstrip_char BOM s else s
  | [] => s
  end.

(** [_json_loads_maybe_twice(s)] *)
Definition _json_loads_maybe_twice (s : pystr) : res pyval :=
  (let s := strip_bom s in
   obj <- json_loads s ;;
   match obj with
   | PStr o => json_loads (strip_bom o)
   | _ => Ok obj
   end)%res.

(** [not DLQ_URL] *)
Definition dlq_unset : bool :=
  match DLQ_URL env with
  | None | Some [] => true
  | Some _ => false
  end.

(** [_send_to_dlq(original_body, err_msg)] *)
Definition _send_to_dlq (original_body err_msg : pystr) : M unit :=
  (if negb (pystr_eqb (QUEUE_PROVIDER env) (U "sqs")) then ret tt
   else if dlq_unset then
     logging ERROR (U "DLQ_URL not set; dropping invalid message. err="
                      ++ err_msg ++ U " body=" ++ firstn 500 original_body)
   else
     let url := match DLQ_URL env with Some u => u | None => [] end in
     let body := json_dumps (PDict [(U "error", PStr err_msg);
                                    (U "original", PStr original_body)]) in
     n <- tick ;;
     match sqs_send h n body with
     | None =>
         _ <- push_dlq url body ;;
         _incr "dlq.sent" 1 []
     | Some e => logging ERROR (U "Failed sending to DLQ: " ++ boto_msg e)
     end)%M.

(** [db._env(name)] *)
Definition _env (name : string) (v : option pystr) : res pystr :=
  match v with
  | Some s => Ok s
  | None => Raise (mkExc RuntimeError (U "Missing env var: " ++ U name))
  end.

(** [db.get_conn()].  The port and the TLS mode are part of what the
    weather of the database decides. *)
Definition get_conn : M db.conn :=
  (_ <- lift (_env "DB_HOST" (env_DB_HOST env)) ;;
   _ <- lift (_env "DB_NAME" (env_DB_NAME env)) ;;
   _ <- lift (_env "DB_USER" (env_DB_USER env)) ;;
   _ <- lift (_env "DB_PASSWORD" (env_DB_PASSWORD env)) ;;
   n <- tick ;;
   t <- get_w_table ;;
   match weather h n with
   | DbUp now => ret (db.mkConn now t None None)
   | DbConnectError e => raise e
   | DbExecError now e => ret (db.mkConn now t (Some e) None)
   | DbCommitError now e => ret (db.mkConn now t None (Some e))
   end)%M.

(** [conn.commit()] *)
Definition commit (c : db.conn) : M unit :=
  match db.commit_fault c with
  | Some e => raise e
  | None => set_w_table (db.txn_table c)
  end.

(** [_db_exec(DDL_PRICE_ITEMS)]: create the table and its index if they
    are absent. *)
Definition _db_exec : M unit :=
  (c <- get_conn ;;
   match db.exec_fault c with
   | Some e => raise e
   | None =>
       commit (db.set_table c (match db.txn_table c with
                               | None => Some []
                               | Some t => Some t
                               end))
   end)%M.

(** [_db_ping()] *)
Definition _db_ping : M unit :=
  (c <- get_conn ;;
   match db.exec_fault c with
   | Some e => raise e
   | None => ret tt
   end)%M.

(** [_count_table()] *)
Definition _count_table : M nat :=
  (c <- get_conn ;;
   match db.exec_fault c, db.txn_table c with
   | Some e, _ => raise e
   | None, None => raise (db.db_error "relation price_items does not exist")
   | None, Some t => ret (length t)
   end)%M.

(** [_process_doc(doc)] *)
Definition _process_doc (doc : pyval) : M nat :=
  (n <- tick ;;
   norm <- lift (normalizer.normalize_message env (utcnow h n) doc) ;;
   _ <- lift (validator.validate_doc norm) ;;
   rows <- lift (validator.doc_to_rows norm) ;;
   c <- get_conn ;;
   n <- match db.upsert_rows c rows with
        | (Ok n, c') => _ <- commit c' ;; ret n
        | (Raise e, _) => raise e
        end ;;
   _ <- _incr "db.upserted" (Z.of_nat n) [] ;;
   ret n)%M.

(** One record of an SQS event. *)
Record sqs_record : Type := {
  rec_body : option pystr;
  rec_messageId : option pystr
}.

(** [rec.get("body", "")] *)
Definition body_of (r : sqs_record) : pystr :=
  match rec_body r with Some b => b | None => [] end.

(** [rec.get("messageId", "unknown")] *)
Definition item_identifier (r : sqs_record) : pystr :=
  match rec_messageId r with Some i => i | None => U "unknown" end.

(** The [try] block of the loop of [lambda_handler]: decode, process and
    count one message. *)
Definition process_record (r : sqs_record) : M nat :=
  (doc <- lift (_json_loads_maybe_twice (body_of r)) ;;
   upserted <- _process_doc doc ;;
   _ <- _incr "msg.ok" 1 [] ;;
   ret upserted)%M.

(** The [except Exception as e] block. *)
Definition on_failure (r : sqs_record) (e : exc) : M unit :=
  (_ <- _send_to_dlq (body_of r) (exc_msg e) ;;
   logging ERROR (U "invalid message id="
                    ++ match rec_messageId r with Some i => i | None => U "None" end
                    ++ U " err=" ++ exc_msg e))%M.

(** The loop [for rec in event["Records"]], on the accumulators [total]
    and [failures]. *)
Fixpoint batch_loop (records : list sqs_record) (total : nat)
  (failures : list pystr) : M (nat * list pystr) :=
  match records with
  | [] => ret (total, failures)
  | r :: tl =>
      (acc <- try_except
                (upserted <- process_record r ;;
                 ret (total + upserted, failures))
                (fun e =>
                   _ <- on_failure r e ;;
                   ret (total, failures ++ [item_identifier r])) ;;
       batch_loop tl (fst acc) (snd acc))%M
  end.

Inductive event : Type :=
| EventDict (action : option pystr) (records : option (list sqs_record))
| EventOther.

(** The dict [lambda_handler] returns. *)
Inductive response : Type :=
| SetupDone
| ProbeOk
| Count (n : nat)
| BatchItemFailures (failures : list pystr)
| OkUpserted (n : nat)
| UnexpectedShape.

Definition action_is (a : option pystr) (name : string) : bool :=
  match a with
  | Some s => pystr_eqb s (U name)
  | None => false
  end.

(** [lambda_handler(event, context)] *)
Definition lambda_handler (ev : event) : M response :=
  match ev with
  | EventDict action records =>
      if action_is action "setup" then
        (_ <- _db_exec ;;
         _ <- logging INFO (U "setup: price_items ensured") ;;
         ret SetupDone)%M
      else if action_is action "probe" then
        (_ <- _db_ping ;; ret ProbeOk)%M
      else if action_is action "count" then
        (n <- _count_table ;; ret (Count n))%M
      else
        match records with
        | Some recs =>
            (acc <- timer "ingest.batch.ms"
                      [(U "provider", PStr (U "sqs"));
                       (U "count", PInt (Z.of_nat (length recs)))]
                      (batch_loop recs 0 []) ;;
             match snd acc with
             | [] => ret (OkUpserted (fst acc))
             | fs => ret (BatchItemFailures fs)
             end)%M
        | None => ret UnexpectedShape
        end
  | EventOther => ret UnexpectedShape
  end.

End WithRuntime.
End consumer.

(** * The validation rules, as the specification lists them

    Rules 1 to 5 are about the document, rule 6 is about each item.  A rule
    about a field of an item is not examined when the item is not an
    object, and the range of a price is not examined when the price is not
    a number. *)

Module rules.
Section WithRuntime.
Context {rt : Runtime}.

Inductive rule : Type :=
| Provider | Branch | DocType | Timestamp | Items
| ItemObject (i : nat) | ItemProduct (i : nat) | ItemUnit (i : nat)
| PriceNumber (i : nat) | PriceRange (i : nat).

(** The text of a violation. *)
Definition message (r : rule) : pystr :=
  match r with
  | Provider => U "'provider' is too short"
  | Branch => U "'branch' is too short"
  | DocType => U "'type' must be one of ['pricesFull', 'promoFull']"
  | Timestamp => U "'timestamp' must be ISO8601 UTC with Z suffix"
  | Items => U "'items' must be a non-empty array"
  | ItemObject i => U "item[" ++ str_of_nat i ++ U "] must be an object"
  | ItemProduct i => U "item[" ++ str_of_nat i ++ U "].product is too short"
  | ItemUnit i => U "item[" ++ str_of_nat i ++ U "].unit is too short"
  | PriceNumber i => U "item[" ++ str_of_nat i ++ U "].price must be a number"
  | PriceRange i => U "item[" ++ str_of_nat i ++ U "].price must be >= 0"
  end.

(** A string that is not empty after trimming. *)
Definition nonempty_text (v : pyval) : bool :=
  match v with
  | PStr s => match strip s with [] => false | _ => true end
  | _ => false
  end.

(** Rules 1 to 5 on a document. *)
Definition doc_holds (d : pydict) (r : rule) : bool :=
  match r with
  | Provider => nonempty_text (dict_get "provider" d)
  | Branch => nonempty_text (dict_get "branch" d)
  | DocType =>
      match dict_get "type" d with
      | PStr s => pystr_eqb s (U "pricesFull") || pystr_eqb s (U "promoFull")
      | _ => false
      end
  | Timestamp =>
      match dict_get "timestamp" d with
      | PStr s => endswith (U "Z") s
      | _ => false
      end
  | Items =>
      match dict_get "items" d with
      | PList (_ :: _) => true
      | _ => false
      end
  | _ => true
  end.

(** Rule 6 on one item: the product and the unit are not empty, the price
    parses as a number, and that number is [>= 0].  No order relates NaN
    to zero, so a price that is NaN is not [>= 0]. *)
Definition item_holds (it : pyval) (r : rule) : bool :=
  match it, r with
  | PDict _, ItemObject _ => true
  | _, ItemObject _ => false
  | PDict d, ItemProduct _ => nonempty_text (dict_get "product" d)
  | PDict d, ItemUnit _ => nonempty_text (dict_get "unit" d)
  | PDict d, PriceNumber _ => is_ok (py_float (dict_get "price" d))
  | PDict d, PriceRange _ =>
      match py_float (dict_get "price" d) with
      | Ok f => f_le f_zero f
      | Raise _ => true
      end
  | _, _ => true
  end.

Definition item_rules (i : nat) : list rule :=
  [ItemObject i; ItemProduct i; ItemUnit i; PriceNumber i; PriceRange i].

Definition item_violations (i : nat) (it : pyval) : list rule :=
  filter (fun r => negb (item_holds it r)) (item_rules i).

Fixpoint items_violations (i : nat) (l : list pyval) : list rule :=
  match l with
  | [] => []
  | it :: tl => item_violations i it ++ items_violations (S i) tl
  end.

(** Every rule the document violates, in the order of collection. *)
Definition violations (d : pydict) : list rule :=
  filter (fun r => negb (doc_holds d r))
         [Provider; Branch; DocType; Timestamp; Items]
  ++ match dict_get "items" d with
     | PList l => items_violations 0 l
     | _ => []
     end.

(** A value that [hash] accepts. *)
Definition hashable (v : pyval) : bool :=
  match v with
  | PList _ | PDict _ => false
  | _ => true
  end.

End WithRuntime.
End rules.

(** * A reference runtime

    An executable instance of the runtime library, used to run the pipeline
    on concrete messages.  [float] follows CPython 3.11 on every string.
    The rest follows it on ASCII text: lower-casing and [repr] treat every
    character above U+007F as a printable character without case,
    [fromisoformat] reads the format [isoformat] writes, and the host is in
    the UTC time zone. *)

Module reference.

Definition lower (s : pystr) : pystr :=
  map (fun c => if ((65 <=? c) && (c <=? 90))%N then (c + 32)%N else c) s.

(** *** Decimal to binary64 and back *)

(** The binary64 number nearest to [m * 10^e10]. *)
Definition float_of_dec (neg : bool) (m : Z) (e10 : Z) : pyfloat :=
  let sgn (z : Z) := if neg then Z.opp z else z in
  if (m <=? 0)%Z then S754_zero neg
  else if (0 <=? e10)%Z then binary_normalize 53 1024 (sgn (m * 10 ^ e10)%Z) 0 neg
  else
    let den := (10 ^ (- e10))%Z in
    let s := Z.max 0 (66 + Z.log2 den - Z.log2 m) in
    let num := (m * 2 ^ s)%Z in
    let sticky := if (num mod den =? 0)%Z then 0%Z else 1%Z in
    binary_normalize 53 1024 (sgn (2 * (num / den) + sticky)%Z) (- (s + 1)) neg.

Definition is_digit (c : N) : bool := ((48 <=? c) && (c <=? 57))%N.

Fixpoint span_digits (s : pystr) : pystr * pystr :=
  match s with
  | c :: tl =>
      if is_digit c then let '(ds, rest) := span_digits tl in (c :: ds, rest)
      else ([], s)
  | [] => ([], [])
  end.

Definition Z_of_digits (ds : pystr) : Z :=
  fold_left (fun acc c => (acc * 10 + Z.of_N (c - 48))%Z) ds 0%Z.

(** An optional sign: whether it is a minus, and the rest. *)
Definition split_sign (s : pystr) : bool * pystr :=
  match s with
  | 45%N :: tl => (true, tl)
  | 43%N :: tl => (false, tl)
  | _ => (false, s)
  end.

(** The exponent part [e[+-]digits] of a literal, which must end the
    string; the empty string is the exponent 0. *)
Definition parse_exponent (s : pystr) : option Z :=
  match s with
  | [] => Some 0%Z
  | c :: tl =>
      if ((c =? 101) || (c =? 69))%N then
        let '(neg, r) := split_sign tl in
        match span_digits r with
        | ((_ :: _) as ds, []) =>
            Some (if neg then (- Z_of_digits ds)%Z else Z_of_digits ds)
        | _ => None
        end
      else None
  end.

(** The zeros of the decimal digits of Unicode 14.0 (category Nd): each
    is followed by the digits 1 to 9 of its script. *)
Definition decimal_zeros : list N :=
  [48; 1632; 1776; 1984; 2406; 2534; 2662; 2790; 2918; 3046; 3174; 3302;
   3430; 3558; 3664; 3792; 3872; 4160; 4240; 6112; 6160; 6470; 6608; 6784;
   6800; 6992; 7088; 7232; 7248; 42528; 43216; 43264; 43472; 43504; 43600;
   44016; 65296; 66720; 68912; 69734; 69872; 69942; 70096; 70384; 70736;
   70864; 71248; 71360; 71472; 71904; 72016; 72784; 73040; 73120; 92768;
   92864; 93008; 120782; 120792; 120802; 120812; 120822; 123200; 123632;
   125264; 130032]%N.

(** [Py_UNICODE_TODECIMAL] *)
Definition to_decimal (c : N) : option N :=
  option_map (fun z => (c - z)%N)
             (find (fun z => ((z <=? c) && (c <? z + 10))%N) decimal_zeros).

(** [_PyUnicode_TransformDecimalAndSpaceToASCII] on one code point: a code
    point below 127 is kept, white space becomes a space, a decimal digit
    the ASCII digit of its value, anything else a question mark, which no
    literal contains. *)
Definition to_ascii (c : N) : N :=
  if (c <? 127)%N then c
  else if is_space c then 32%N
  else match to_decimal c with
       | Some d => (48 + d)%N
       | None => 63%N
       end.

(** [Py_ISSPACE]: the white space of the C locale. *)
Definition c_isspace (c : N) : bool :=
  (((9 <=? c) && (c <=? 13)) || (c =? 32))%N.

(** [_Py_string_to_number_with_underscores]: an underscore stands between
    two digits; the text without its underscores.  [prev] is the character
    before [s]. *)
Fixpoint drop_underscores (prev : N) (s : pystr) : option pystr :=
  match s with
  | [] => if (prev =? 95)%N then None else Some []
  | c :: tl =>
      if (c =? 95)%N then
        if is_digit prev then drop_underscores c tl else None
      else if ((prev =? 95)%N && negb (is_digit c))%bool then None
      else option_map (cons c) (drop_underscores c tl)
  end.

(** The literal itself: a sign, then [inf], [infinity] or [nan] in any
    case, or digits with at most one point and an exponent. *)
Definition float_of_literal (s : pystr) : option pyfloat :=
  let '(neg, r) := split_sign s in
  let w := lower r in
  if pystr_eqb w (U "inf") || pystr_eqb w (U "infinity") then Some (S754_infinity neg)
  else if pystr_eqb w (U "nan") then Some S754_nan
  else
    let '(ip, r1) := span_digits r in
    let '(fp, r2) := match r1 with
                     | 46%N :: tl => span_digits tl
                     | _ => ([], r1)
                     end in
    match ip ++ fp with
    | [] => None
    | ds =>
        match parse_exponent r2 with
        | Some e => Some (float_of_dec neg (Z_of_digits ds)
                                       (e - Z.of_nat (length fp)))
        | None => None
        end
    end.

(** [float(s)]: the text is brought to ASCII, the white space of the C
    locale is trimmed at both ends, the underscores between digits are
    dropped and the literal is read. *)
Definition float_of_str (s : pystr) : option pyfloat :=
  let a := map to_ascii s in
  let t := rev (drop_while c_isspace (rev (drop_while c_isspace a))) in
  match drop_underscores 0 t with
  | Some lit => float_of_literal lit
  | None => None
  end.

(** [N / D >= 10^k] for positive [N] and [D] *)
Definition ge_pow10 (N D k : Z) : bool :=
  if (0 <=? k)%Z then (D * 10 ^ k <=? N)%Z else (D <=? N * 10 ^ (- k))%Z.

(** The floor of the decimal logarithm of [N / D]. *)
Definition log10_floor (N D : Z) : Z :=
  let est := (((Z.log2 N - Z.log2 D) * 30103) / 100000)%Z in
  fold_left (fun acc j => if ge_pow10 N D (est + j) then (est + j)%Z else acc)
            [-2; -1; 0; 1; 2; 3]%Z (est - 3)%Z.

Definition float_eqb (a b : pyfloat) : bool :=
  match a, b with
  | S754_zero s, S754_zero s' => Bool.eqb s s'
  | S754_infinity s, S754_infinity s' => Bool.eqb s s'
  | S754_nan, S754_nan => true
  | S754_finite s m e, S754_finite s' m' e' =>
      Bool.eqb s s' && Pos.eqb m m' && Z.eqb e e'
  | _, _ => false
  end.

(** The digits [c] and the exponent [j] of the shortest decimal [c * 10^j]
    that reads back as the positive number [m * 2^e], the nearest one when
    two are as short. *)
Fixpoint shortest_from (fuel : nat) (p : Z) (m : positive) (e : Z) (k10 : Z)
  : Z * Z :=
  let N := if (0 <=? e)%Z then (Zpos m * 2 ^ e)%Z else Zpos m in
  let D := if (0 <=? e)%Z then 1%Z else (2 ^ (- e))%Z in
  let j := (k10 - p + 1)%Z in
  let num := if (0 <=? j)%Z then N else (N * 10 ^ (- j))%Z in
  let den := if (0 <=? j)%Z then (D * 10 ^ j)%Z else D in
  let a := (num / den)%Z in
  let r := (num mod den)%Z in
  let f := S754_finite false m e in
  let lo_ok := float_eqb (float_of_dec false a j) f in
  let hi_ok := float_eqb (float_of_dec false (a + 1) j) f in
  let nearer_hi := if (2 * r =? den)%Z then Z.odd a else (den <? 2 * r)%Z in
  match fuel with
  | O => (a, j)
  | S fuel' =>
      if lo_ok && hi_ok then (if nearer_hi then (a + 1)%Z else a, j)
      else if lo_ok then (a, j)
      else if hi_ok then ((a + 1)%Z, j)
      else shortest_from fuel' (p + 1) m e k10
  end.

Definition shortest (m : positive) (e : Z) : Z * Z :=
  let N := if (0 <=? e)%Z then (Zpos m * 2 ^ e)%Z else Zpos m in
  let D := if (0 <=? e)%Z then 1%Z else (2 ^ (- e))%Z in
  shortest_from 17 1 m e (log10_floor N D).

Fixpoint strip_zeros_rev (r : pystr) : pystr :=
  match r with
  | 48%N :: tl => strip_zeros_rev tl
  | _ => r
  end.

Definition zeros (n : Z) : pystr := repeat 48%N (Z.to_nat n).

(** [repr] of a positive finite float from its shortest digits *)
Definition format_repr (c j : Z) : pystr :=
  let all := str_of_N (Z.to_N c) in
  let ds := rev (strip_zeros_rev (rev all)) in
  let decpt := (j + Z.of_nat (length all))%Z in
  let nd := Z.of_nat (length ds) in
  if ((-4 <? decpt) && (decpt <=? 16))%Z then
    if (decpt <=? 0)%Z then U "0." ++ zeros (- decpt) ++ ds
    else if (nd <=? decpt)%Z then ds ++ zeros (decpt - nd) ++ U ".0"
    else firstn (Z.to_nat decpt) ds ++ U "." ++ skipn (Z.to_nat decpt) ds
  else
    let ex := (decpt - 1)%Z in
    firstn 1 ds
      ++ (match skipn 1 ds with [] => [] | tl => U "." ++ tl end)
      ++ U "e" ++ (if (ex <? 0)%Z then U "-" else U "+")
      ++ datetime.pad 2 (Z.abs ex).

(** [repr(f)] *)
Definition repr_float (f : pyfloat) : pystr :=
  match f with
  | S754_zero s => if s then U "-0.0" else U "0.0"
  | S754_infinity s => if s then U "-inf" else U "inf"
  | S754_nan => U "nan"
  | S754_finite s m e =>
      let '(c, j) := shortest m e in
      (if s then U "-" else []) ++ format_repr c j
  end.

Definition hex_digit (d : N) : N :=
  if (d <? 10)%N then (48 + d)%N else (87 + d)%N.

(** [w] lower-case hexadecimal digits of [n] *)
Fixpoint hex (w : nat) (n : N) : pystr :=
  match w with
  | O => []
  | S w' => hex w' (n / 16) ++ [hex_digit (n mod 16)]
  end.

(** [repr(s)] for a string *)
Definition repr_str (s : pystr) : pystr :=
  let has c := existsb (N.eqb c) s in
  let q := if has 39%N && negb (has 34%N) then 34%N else 39%N in
  let esc (c : N) : pystr :=
    if (N.eqb c q || N.eqb c 92)%bool then [92%N; c]
    else if N.eqb c 9 then U "\t"
    else if N.eqb c 10 then U "\n"
    else if N.eqb c 13 then U "\r"
    else if ((c <? 32) || (c =? 127))%N then U "\x" ++ hex 2 c
    else [c] in
  q :: flat_map esc s ++ [q].

(** [repr(v)] *)
Fixpoint repr (v : pyval) : pystr :=
  match v with
  | PNone => U "None"
  | PBool true => U "True"
  | PBool false => U "False"
  | PInt n => str_of_Z n
  | PFloat f => repr_float f
  | PStr s => repr_str s
  | PList l => U "[" ++ join (U ", ") (map repr l) ++ U "]"
  | PDict d =>
      U "{" ++ join (U ", ")
                 (map (fun kv => match kv with
                                 | (k, x) => repr_str k ++ U ": " ++ repr x
                                 end) d)
        ++ U "}"
  end.


(** *** JSON *)

(** One character of a string, as [json.dumps] writes it with
    [ensure_ascii]. *)
Definition json_escape (c : N) : pystr :=
  if N.eqb c 34 then [92%N; 34%N]
  else if N.eqb c 92 then [92%N; 92%N]
  else if N.eqb c 10 then U "\n"
  else if N.eqb c 13 then U "\r"
  else if N.eqb c 9 then U "\t"
  else if N.eqb c 8 then U "\b"
  else if N.eqb c 12 then U "\f"
  else if ((32 <=? c) && (c <=? 126))%N then [c]
  else if (c <? 65536)%N then U "\u" ++ hex 4 c
  else
    let v := (c - 65536)%N in
    U "\u" ++ hex 4 (55296 + v / 1024) ++ U "\u" ++ hex 4 (56320 + v mod 1024).

Definition dumps_str (s : pystr) : pystr := 34%N :: flat_map json_escape s ++ [34%N].

Definition dumps_float (f : pyfloat) : pystr :=
  match f with
  | S754_nan => U "NaN"
  | S754_infinity s => if s then U "-Infinity" else U "Infinity"
  | _ => repr_float f
  end.

(** [json.dumps(v)] *)
Fixpoint dumps (v : pyval) : pystr :=
  match v with
  | PNone => U "null"
  | PBool true => U "true"
  | PBool false => U "false"
  | PInt n => str_of_Z n
  | PFloat f => dumps_float f
  | PStr s => dumps_str s
  | PList l => U "[" ++ join (U ", ") (map dumps l) ++ U "]"
  | PDict d =>
      U "{" ++ join (U ", ")
                 (map (fun kv => match kv with
                                 | (k, x) => dumps_str k ++ U ": " ++ dumps x
                                 end) d)
        ++ U "}"
  end.

Definition is_ws (c : N) : bool :=
  (N.eqb c 32 || N.eqb c 9 || N.eqb c 10 || N.eqb c 13)%bool.

Definition skip_ws (s : pystr) : pystr := drop_while is_ws s.

Definition hex_value (c : N) : option N :=
  if is_digit c then Some (c - 48)%N
  else if ((97 <=? c) && (c <=? 102))%N then Some (c - 87)%N
  else if ((65 <=? c) && (c <=? 70))%N then Some (c - 55)%N
  else None.

(** Four hexadecimal digits. *)
Definition hex4 (s : pystr) : option (N * pystr) :=
  match s with
  | a :: b :: c :: d :: rest =>
      match hex_value a, hex_value b, hex_value c, hex_value d with
      | Some a, Some b, Some c, Some d =>
          Some (((a * 16 + b) * 16 + c) * 16 + d, rest)%N
      | _, _, _, _ => None
      end
  | _ => None
  end.

(** The characters of a string literal after its opening quote, and what
    follows the closing quote. *)
Fixpoint scan_string (fuel : nat) (s : pystr) (acc : pystr)
  : option (pystr * pystr) :=
  match fuel with
  | O => None
  | S fuel' =>
      match s with
      | [] => None
      | 34%N :: rest => Some (rev acc, rest)
      | 92%N :: e :: rest =>
          let simple (c : N) := scan_string fuel' rest (c :: acc) in
          if N.eqb e 34 then simple 34%N
          else if N.eqb e 92 then simple 92%N
          else if N.eqb e 47 then simple 47%N
          else if N.eqb e 98 then simple 8%N
          else if N.eqb e 102 then simple 12%N
          else if N.eqb e 110 then simple 10%N
          else if N.eqb e 114 then simple 13%N
          else if N.eqb e 116 then simple 9%N
          else if N.eqb e 117 then
            match hex4 rest with
            | None => None
            | Some (u, rest1) =>
                if ((55296 <=? u) && (u <=? 56319))%N then
                  match rest1 with
                  | 92%N :: 117%N :: rest2 =>
                      match hex4 rest2 with
                      | None => None
                      | Some (u2, rest3) =>
                          if ((56320 <=? u2) && (u2 <=? 57343))%N then
                            scan_string fuel' rest3
                              ((65536 + (u - 55296) * 1024 + (u2 - 56320))%N :: acc)
                          else scan_string fuel' rest1 (u :: acc)
                      end
                  | _ => scan_string fuel' rest1 (u :: acc)
                  end
                else scan_string fuel' rest1 (u :: acc)
            end
          else None
      | c :: rest =>
          if (c <? 32)%N then None else scan_string fuel' rest (c :: acc)
      end
  end.

(** A number: an optional minus, an integer part without leading zero,
    an optional fraction and an optional exponent.  With a fraction or an
    exponent it is a float, else an int. *)
Definition scan_number (s : pystr) : option (pyval * pystr) :=
  let '(neg, r0) := match s with 45%N :: tl => (true, tl) | _ => (false, s) end in
  let int_part :=
    match r0 with
    | 48%N :: tl => Some ([48%N], tl)
    | c :: _ => if is_digit c then Some (span_digits r0) else None
    | [] => None
    end in
  match int_part with
  | None => None
  | Some (ip, r1) =>
      let '(fp, r2) :=
        match r1 with
        | 46%N :: tl =>
            match span_digits tl with
            | ([], _) => ([], r1)
            | (ds, rest) => (ds, rest)
            end
        | _ => ([], r1)
        end in
      let has_frac := match fp with [] => false | _ => true end in
      let exp_part :=
        match r2 with
        | c :: tl =>
            if (N.eqb c 101 || N.eqb c 69)%bool then
              let '(eneg, r3) := split_sign tl in
              match span_digits r3 with
              | ([], _) => None
              | (ds, rest) =>
                  Some (if eneg then (- Z_of_digits ds)%Z else Z_of_digits ds, rest)
              end
            else None
        | [] => None
        end in
      match exp_part with
      | Some (e, r4) =>
          Some (PFloat (float_of_dec neg (Z_of_digits (ip ++ fp))
                                     (e - Z.of_nat (length fp))), r4)
      | None =>
          if has_frac then
            Some (PFloat (float_of_dec neg (Z_of_digits (ip ++ fp))
                                       (- Z.of_nat (length fp))), r2)
          else
            Some (PInt (if neg then (- Z_of_digits ip)%Z else Z_of_digits ip), r1)
      end
  end.

Definition after_prefix (p : string) (s : pystr) : option pystr :=
  if startswith (U p) s then Some (skipn (length (U p)) s) else None.

Definition scan_literal (s : pystr) : option (pyval * pystr) :=
  match after_prefix "null" s, after_prefix "true" s, after_prefix "false" s,
        after_prefix "NaN" s, after_prefix "Infinity" s,
        after_prefix "-Infinity" s with
  | Some r, _, _, _, _, _ => Some (PNone, r)
  | _, Some r, _, _, _, _ => Some (PBool true, r)
  | _, _, Some r, _, _, _ => Some (PBool false, r)
  | _, _, _, Some r, _, _ => Some (PFloat S754_nan, r)
  | _, _, _, _, Some r, _ => Some (PFloat (S754_infinity false), r)
  | _, _, _, _, _, Some r => Some (PFloat (S754_infinity true), r)
  | _, _, _, _, _, _ => scan_number s
  end.

(** A value at the start of [s], and the rest. *)
Fixpoint scan_value (fuel : nat) (s : pystr) : option (pyval * pystr) :=
  match fuel with
  | O => None
  | S fuel' =>
      match s with
      | 34%N :: r =>
          match scan_string (length r) r [] with
          | Some (str, rest) => Some (PStr str, rest)
          | None => None
          end
      | 91%N :: r =>
          match skip_ws r with
          | 93%N :: rest => Some (PList [], rest)
          | r' => scan_elements fuel' r' []
          end
      | 123%N :: r =>
          match skip_ws r with
          | 125%N :: rest => Some (PDict [], rest)
          | r' => scan_members fuel' r' []
          end
      | _ => scan_literal s
      end
  end
with scan_elements (fuel : nat) (s : pystr) (acc : list pyval)
  : option (pyval * pystr) :=
  match fuel with
  | O => None
  | S fuel' =>
      match scan_value fuel' s with
      | Some (v, r) =>
          match skip_ws r with
          | 44%N :: r' => scan_elements fuel' (skip_ws r') (v :: acc)
          | 93%N :: r' => Some (PList (rev (v :: acc)), r')
          | _ => None
          end
      | None => None
      end
  end
with scan_members (fuel : nat) (s : pystr) (acc : pydict)
  : option (pyval * pystr) :=
  match fuel with
  | O => None
  | S fuel' =>
      match s with
      | 34%N :: r =>
          match scan_string (length r) r [] with
          | Some (k, r1) =>
              match skip_ws r1 with
              | 58%N :: r2 =>
                  match scan_value fuel' (skip_ws r2) with
                  | Some (v, r3) =>
                      let acc' := dict_set k v acc in
                      match skip_ws r3 with
                      | 44%N :: r4 => scan_members fuel' (skip_ws r4) acc'
                      | 125%N :: r4 => Some (PDict acc', r4)
                      | _ => None
                      end
                  | None => None
                  end
              | _ => None
              end
          | None => None
          end
      | _ => None
      end
  end.

Definition decode_error (what : string) : exc := mkExc JSONDecodeError (U what).

(** [json.loads(s)] *)
Definition loads (s : pystr) : res pyval :=
  if startswith [65279%N] s
  then Raise (decode_error "Unexpected UTF-8 BOM (decode using utf-8-sig)")
  else
    match scan_value (2 * length s + 2) (skip_ws s) with
    | Some (v, rest) =>
        match skip_ws rest with
        | [] => Ok v
        | _ => Raise (decode_error "Extra data")
        end
    | None => Raise (decode_error "Expecting value")
    end.


(** *** Reading the ISO format *)

(** Exactly [w] decimal digits. *)
Definition take_digits (w : nat) (s : pystr) : option (Z * pystr) :=
  let d := firstn w s in
  if ((length d =? w)%nat && forallb is_digit d)%bool
  then Some (Z_of_digits d, skipn w s) else None.

(** [YYYY-MM-DD] *)
Definition parse_date (s : pystr) : option (Z * Z * Z * pystr) :=
  match take_digits 4 s with
  | Some (y, 45%N :: r1) =>
      match take_digits 2 r1 with
      | Some (m, 45%N :: r2) =>
          match take_digits 2 r2 with
          | Some (d, r3) => Some (y, m, d, r3)
          | None => None
          end
      | _ => None
      end
  | _ => None
  end.

(** The fraction [.fff] or [.ffffff], in microseconds. *)
Definition parse_fraction (s : pystr) : option Z :=
  match take_digits 6 s, take_digits 3 s with
  | Some (us, []), _ => Some us
  | _, Some (ms, []) => Some (ms * 1000)%Z
  | _, _ => None
  end.

(** [HH[:MM[:SS[.fff[fff]]]]], to the end of the string *)
Definition parse_hh_mm_ss_ff (s : pystr) : option (Z * Z * Z * Z) :=
  match take_digits 2 s with
  | Some (hh, []) => Some (hh, 0, 0, 0)%Z
  | Some (hh, 58%N :: r1) =>
      match take_digits 2 r1 with
      | Some (mi, []) => Some (hh, mi, 0, 0)%Z
      | Some (mi, 58%N :: r2) =>
          match take_digits 2 r2 with
          | Some (ss, []) => Some (hh, mi, ss, 0%Z)
          | Some (ss, 46%N :: r3) =>
              match parse_fraction r3 with
              | Some us => Some (hh, mi, ss, us)
              | None => None
              end
          | _ => None
          end
      | _ => None
      end
  | _ => None
  end.

(** The time before the first sign, and the sign and what follows it. *)
Fixpoint split_tz (s : pystr) : pystr * option (bool * pystr) :=
  match s with
  | [] => ([], None)
  | c :: tl =>
      if N.eqb c 43 then ([], Some (false, tl))
      else if N.eqb c 45 then ([], Some (true, tl))
      else let '(a, b) := split_tz tl in (c :: a, b)
  end.

Definition checked (d : datetime.t) : option datetime.t :=
  if datetime.valid d then Some d else None.

(** [datetime.fromisoformat(s)], for
    [YYYY-MM-DD[*HH[:MM[:SS[.fff[fff]]]][+HH:MM[:SS[.ffffff]]]]] *)
Definition fromisoformat (s : pystr) : option datetime.t :=
  match parse_date s with
  | Some (y, m, d, []) => checked (datetime.mk y m d 0 0 0 0 None)
  | Some (y, m, d, _ :: tstr) =>
      let '(timestr, tz) := split_tz tstr in
      match parse_hh_mm_ss_ff timestr, tz with
      | Some (hh, mi, ss, us), None =>
          checked (datetime.mk y m d hh mi ss us None)
      | Some (hh, mi, ss, us), Some (neg, tzstr) =>
          let n := length tzstr in
          if ((n =? 5) || (n =? 8) || (n =? 15))%nat then
            match parse_hh_mm_ss_ff tzstr with
            | Some (th, tm, tsec, tus) =>
                let off := (((th * 3600 + tm * 60 + tsec) * 1000000) + tus)%Z in
                checked (datetime.mk y m d hh mi ss us
                           (Some (if neg then (- off)%Z else off)))
            | None => None
            end
          else None
      | None, _ => None
      end
  | None => None
  end.

(** *** PostgreSQL input conversions *)

(** The text of the [ValueError] for a string that is not in the format. *)
Definition fromisoformat_error (s : pystr) : pystr :=
  U "Invalid isoformat string: " ++ repr_str s.

Definition pg_text_in (v : pyval) : option pystr :=
  match v with
  | PStr s => Some s
  | _ => None
  end.

(** A [numeric] of PostgreSQL 14, which has NaN and the infinities, kept
    as the float it is read from. *)
Definition pg_numeric_in (v : pyval) : option pyfloat :=
  match v with
  | PFloat f => Some f
  | PInt n => match float_of_Z n with Ok f => Some f | Raise _ => None end
  | _ => None
  end.

(** A [timestamptz] literal in the ISO format, whose offset is [Z] or
    numeric, in microseconds since 0001-01-01T00:00:00Z; a literal without
    offset is in the UTC session time zone. *)
Definition pg_timestamptz_in (v : pyval) : option Z :=
  match v with
  | PStr s =>
      let iso := if endswith (U "Z") s
                 then removelast s ++ U "+00:00" else s in
      match fromisoformat iso with
      | Some d =>
          Some (datetime.to_us d - datetime.US_PER_DAY
                - match datetime.tzoffset d with Some o => o | None => 0 end)%Z
      | None => None
      end
  | _ => None
  end.

(** [str(v)] of a float, a list or a dict *)
Definition str_of_other (v : pyval) : pystr := repr v.

End reference.

(** * Facts about strings *)

Lemma pystr_eqb_eq (a b : pystr) : pystr_eqb a b = true <-> a = b.
Proof.
  revert b; induction a as [|x a IH]; intros [|y b]; simpl; split; intro H;
    try reflexivity; try discriminate.
  - apply andb_true_iff in H as [Hx Hr].
    apply N.eqb_eq in Hx. apply IH in Hr. congruence.
  - injection H as -> ->. now rewrite N.eqb_refl, (proj2 (IH b) eq_refl).
Qed.

Lemma pystr_eqb_refl (a : pystr) : pystr_eqb a a = true.
Proof. now apply pystr_eqb_eq. Qed.

Lemma pystr_eqb_neq (a b : pystr) : pystr_eqb a b = false <-> a <> b.
Proof.
  split; intro H.
  - intros ->. now rewrite pystr_eqb_refl in H.
  - destruct (pystr_eqb a b) eqn:E; [|reflexivity].
    now apply pystr_eqb_eq in E.
Qed.

Lemma join_contains (sep m : pystr) (l : list pystr) :
  In m l -> exists pre post, join sep l = pre ++ m ++ post.
Proof.
  induction l as [|x l IH]; [intros []|].
  intros [->|Hin].
  - destruct l as [|y l].
    + exists [], []. simpl. now rewrite app_nil_r.
    + exists [], (sep ++ join sep (y :: l)). reflexivity.
  - destruct (IH Hin) as (pre & post & E).
    destruct l as [|y l]; [destruct Hin|].
    exists (x ++ sep ++ pre), post.
    change (join sep (x :: y :: l)) with (x ++ sep ++ join sep (y :: l)).
    rewrite E. now rewrite <- !app_assoc.
Qed.

(** * The reference runtime reads back what [isoformat] writes *)

Section Digits.
Import reference.

Lemma is_digit_char (d : N) : (d < 10)%N -> is_digit (digit_char d) = true.
Proof.
  intro H. unfold is_digit, digit_char.
  apply andb_true_iff; split; apply N.leb_le; lia.
Qed.

Lemma dec_digits_all fuel n acc :
  forallb is_digit acc = true -> forallb is_digit (dec_digits fuel n acc) = true.
Proof.
  revert n acc; induction fuel as [|fuel IH]; intros n acc Hacc; [exact Hacc|].
  simpl. assert (Hd : is_digit (digit_char (n mod 10)) = true).
  { apply is_digit_char. apply N.mod_lt. discriminate. }
  destruct (n <? 10)%N.
  - simpl. now rewrite Hd.
  - apply IH. simpl. now rewrite Hd.
Qed.

Lemma dec_digits_length fuel : forall (w : nat) n acc,
  (n < 10 ^ N.of_nat (S w))%N ->
  (length (dec_digits fuel n acc) <= S w + length acc)%nat.
Proof.
  induction fuel as [|fuel IH]; intros w n acc Hn; simpl; [lia|].
  destruct (n <? 10)%N eqn:E; [simpl; lia|].
  apply N.ltb_ge in E.
  destruct w as [|w].
  - change (10 ^ N.of_nat 1)%N with 10%N in Hn. lia.
  - specialize (IH w (n / 10)%N (digit_char (n mod 10) :: acc)).
    simpl length in IH.
    assert (H10 : (n / 10 < 10 ^ N.of_nat (S w))%N).
    { apply N.Div0.div_lt_upper_bound.
      replace (N.of_nat (S (S w))) with (N.succ (N.of_nat (S w))) in Hn by lia.
      now rewrite N.pow_succ_r' in Hn. }
    specialize (IH H10). lia.
Qed.

Definition digits_step (acc : Z) (c : N) : Z := (acc * 10 + Z.of_N (c - 48))%Z.

Lemma Z_of_digits_fold (l : pystr) (a : Z) :
  fold_left digits_step l a
  = (a * 10 ^ Z.of_nat (length l) + fold_left digits_step l 0)%Z.
Proof.
  revert a; induction l as [|c l IH]; intro a; cbn [fold_left length].
  - simpl. lia.
  - rewrite IH, (IH (digits_step 0 c)). unfold digits_step.
    replace (Z.of_nat (S (length l))) with (Z.succ (Z.of_nat (length l))) by lia.
    rewrite Z.pow_succ_r by lia. ring.
Qed.

Lemma Z_of_digits_cons (c : N) (l : pystr) :
  Z_of_digits (c :: l)
  = (Z.of_N (c - 48) * 10 ^ Z.of_nat (length l) + Z_of_digits l)%Z.
Proof.
  unfold Z_of_digits. cbn [fold_left].
  change (fun acc c0 => (acc * 10 + Z.of_N (c0 - 48))%Z) with digits_step.
  rewrite Z_of_digits_fold. unfold digits_step. lia.
Qed.

Lemma dec_digits_value fuel : forall n acc,
  (n < 2 ^ N.of_nat fuel)%N ->
  Z_of_digits (dec_digits fuel n acc)
  = (Z.of_N n * 10 ^ Z.of_nat (length acc) + Z_of_digits acc)%Z.
Proof.
  induction fuel as [|fuel IH]; intros n acc Hn.
  - simpl in *. assert (n = 0%N) by lia. subst. simpl. lia.
  - simpl dec_digits.
    assert (Hd : Z.of_N (digit_char (n mod 10) - 48) = Z.of_N (n mod 10)).
    { unfold digit_char. now rewrite N.add_comm, N.add_sub. }
    destruct (n <? 10)%N eqn:E.
    + apply N.ltb_lt in E. rewrite Z_of_digits_cons, Hd.
      now rewrite N.mod_small.
    + rewrite IH.
      * rewrite Z_of_digits_cons, Hd. simpl length.
        replace (Z.of_nat (S (length acc))) with (Z.succ (Z.of_nat (length acc)))
          by lia.
        rewrite Z.pow_succ_r by lia.
        rewrite (N.div_mod n 10) at 3 by discriminate.
        rewrite N2Z.inj_add, N2Z.inj_mul. change (Z.of_N 10) with 10%Z. ring.
      * replace (N.of_nat (S fuel)) with (N.succ (N.of_nat fuel)) in Hn by lia.
        rewrite N.pow_succ_r' in Hn.
        apply N.Div0.div_lt_upper_bound.
        lia.
Qed.

Lemma str_of_N_value (n : N) : Z_of_digits (str_of_N n) = Z.of_N n.
Proof.
  unfold str_of_N. rewrite dec_digits_value.
  - simpl. unfold Z_of_digits. simpl. lia.
  - rewrite Nat2N.inj_succ, N2Nat.id.
    destruct n as [|p]; [reflexivity|].
    apply N.log2_spec. lia.
Qed.

Lemma Z_of_digits_zeros (k : nat) (s : pystr) :
  Z_of_digits (repeat 48%N k ++ s) = Z_of_digits s.
Proof.
  induction k as [|k IH]; [reflexivity|].
  simpl. unfold Z_of_digits in *. simpl. exact IH.
Qed.

(** A field of [w] digits: its width, its characters and its value. *)
Lemma pad_spec (w : nat) (n : Z) :
  (0 <= n < 10 ^ Z.of_nat (S w))%Z ->
  length (datetime.pad (S w) n) = S w
  /\ forallb is_digit (datetime.pad (S w) n) = true
  /\ Z_of_digits (datetime.pad (S w) n) = n.
Proof.
  intros [H0 Hn].
  assert (Hpad : datetime.pad (S w) n
                 = repeat 48%N (S w - length (str_of_N (Z.to_N n)))
                     ++ str_of_N (Z.to_N n)).
  { destruct n; try reflexivity. lia. }
  rewrite Hpad.
  assert (Hlen : (length (str_of_N (Z.to_N n)) <= S w)%nat).
  { unfold str_of_N.
    pose proof (dec_digits_length (S (N.to_nat (N.log2 (Z.to_N n)))) w
                  (Z.to_N n) []) as H.
    simpl length in H. rewrite Nat.add_0_r in H. apply H.
    apply N2Z.inj_lt. rewrite Z2N.id by lia.
    rewrite N2Z.inj_pow. simpl Z.of_N at 1.
    now rewrite nat_N_Z. }
  repeat split.
  - rewrite length_app, repeat_length. lia.
  - rewrite forallb_app. apply andb_true_iff; split.
    + apply forallb_forall. intros x Hx. apply repeat_spec in Hx. now subst.
    + unfold str_of_N. now apply dec_digits_all.
  - rewrite Z_of_digits_zeros, str_of_N_value. lia.
Qed.

Lemma take_digits_pad (w : nat) (n : Z) (rest : pystr) :
  (0 <= n < 10 ^ Z.of_nat (S w))%Z ->
  take_digits (S w) (datetime.pad (S w) n ++ rest) = Some (n, rest).
Proof.
  intro H. destruct (pad_spec w n H) as (Hl & Hd & Hv).
  set (p := datetime.pad (S w) n) in *.
  assert (Hf : firstn (S w) (p ++ rest) = p).
  { rewrite firstn_app, Hl, Nat.sub_diag, firstn_O, app_nil_r.
    apply firstn_all2. lia. }
  assert (Hs : skipn (S w) (p ++ rest) = rest).
  { rewrite skipn_app, Hl, Nat.sub_diag. rewrite skipn_all2 by lia.
    reflexivity. }
  unfold take_digits. rewrite Hf, Hs, Hl, Nat.eqb_refl, Hd, Hv. reflexivity.
Qed.

End Digits.

Section ReadBack.
Import reference.

Definition no_sign (s : pystr) : bool :=
  forallb (fun c => negb (N.eqb c 43) && negb (N.eqb c 45)) s.

Lemma no_sign_app (a b : pystr) : no_sign (a ++ b) = no_sign a && no_sign b.
Proof. apply forallb_app. Qed.

Lemma digits_no_sign (s : pystr) : forallb is_digit s = true -> no_sign s = true.
Proof.
  intro H. apply forallb_forall. intros c Hc.
  pose proof (proj1 (forallb_forall _ _) H c Hc) as Hd.
  unfold is_digit in Hd. apply andb_true_iff in Hd as [H1 H2].
  apply N.leb_le in H1, H2.
  apply andb_true_iff; split; apply negb_true_iff, N.eqb_neq; lia.
Qed.

Lemma split_tz_app (a b : pystr) :
  no_sign a = true -> split_tz (a ++ 43%N :: b) = (a, Some (false, b)).
Proof.
  induction a as [|c a IH]; intro H; [reflexivity|].
  simpl in H. apply andb_true_iff in H as [Hc Ha].
  apply andb_true_iff in Hc as [H1 H2].
  apply negb_true_iff in H1, H2.
  simpl. rewrite H1, H2, (IH Ha). reflexivity.
Qed.

Lemma pad_no_sign (w : nat) (n : Z) :
  (0 <= n < 10 ^ Z.of_nat (S w))%Z -> no_sign (datetime.pad (S w) n) = true.
Proof. intro H. apply digits_no_sign. now apply pad_spec. Qed.

Lemma parse_time_fields (h mi s us : Z) :
  (0 <= h < 100)%Z -> (0 <= mi < 100)%Z -> (0 <= s < 100)%Z ->
  (0 <= us < 1000000)%Z ->
  parse_hh_mm_ss_ff
    (datetime.pad 2 h ++ U ":" ++ datetime.pad 2 mi ++ U ":" ++ datetime.pad 2 s
       ++ (if (us =? 0)%Z then [] else U "." ++ datetime.pad 6 us))
  = Some (h, mi, s, us).
Proof.
  intros Hh Hmi Hs Hus. unfold parse_hh_mm_ss_ff.
  rewrite (take_digits_pad 1 h) by (simpl; lia).
  change (U ":") with [58%N]. cbn [app].
  rewrite (take_digits_pad 1 mi) by (simpl; lia).
  rewrite (take_digits_pad 1 s) by (simpl; lia).
  destruct (us =? 0)%Z eqn:E.
  - apply Z.eqb_eq in E. now subst.
  - change (U ".") with [46%N]. cbn [app].
    unfold parse_fraction.
    rewrite <- (app_nil_r (datetime.pad 6 us)).
    rewrite (take_digits_pad 5 us) by (simpl; lia).
    reflexivity.
Qed.

(** [fromisoformat] of the reference runtime is the inverse of
    [isoformat] on UTC date-times. *)
Lemma fromisoformat_isoformat_utc (d : datetime.t) :
  datetime.valid d = true -> datetime.tzoffset d = Some 0%Z ->
  fromisoformat (datetime.isoformat d) = Some d.
Proof.
  destruct d as [y m dd h mi s us tz]. cbn [datetime.tzoffset].
  intros Hv ->.
  assert (Hv' := Hv). unfold datetime.valid in Hv'.
  cbn [datetime.year datetime.month datetime.day datetime.hour datetime.minute
       datetime.second datetime.microsecond datetime.tzoffset] in Hv'.
  repeat (apply andb_true_iff in Hv' as [Hv' ?]).
  repeat match goal with
         | H : (_ <=? _)%Z = true |- _ => apply Z.leb_le in H
         | H : (_ <? _)%Z = true |- _ => apply Z.ltb_lt in H
         end.
  assert (Hdim : (datetime.days_in_month y m <= 31)%Z).
  { unfold datetime.days_in_month.
    destruct (m =? 2)%Z; [destruct (datetime.is_leap y); lia|].
    destruct ((m =? 4) || (m =? 6) || (m =? 9) || (m =? 11))%Z; lia. }
  unfold datetime.US_PER_SECOND in *.
  unfold datetime.isoformat, datetime.naive_text.
  cbn [datetime.year datetime.month datetime.day datetime.hour datetime.minute
       datetime.second datetime.microsecond datetime.tzoffset].
  change (datetime.format_offset (Some 0%Z)) with (43%N :: U "00:00").
  rewrite <- !app_assoc.
  unfold fromisoformat, parse_date.
  rewrite (take_digits_pad 3 y) by (simpl; lia).
  change (U "-") with [45%N]. cbn [app].
  rewrite (take_digits_pad 1 m) by (simpl; lia).
  rewrite (take_digits_pad 1 dd) by (simpl; lia).
  change (U "T") with [84%N]. cbn [app].
  set (frac := if (us =? 0)%Z then [] else U "." ++ datetime.pad 6 us).
  set (timestr := datetime.pad 2 h ++ U ":" ++ datetime.pad 2 mi ++ U ":"
                    ++ datetime.pad 2 s ++ frac).
  replace (datetime.pad 2 h ++ U ":" ++ datetime.pad 2 mi ++ U ":"
             ++ datetime.pad 2 s ++ frac ++ 43%N :: U "00:00")
    with (timestr ++ 43%N :: U "00:00").
  2:{ unfold timestr. now rewrite <- !app_assoc. }
  rewrite split_tz_app.
  2:{ unfold timestr, frac. rewrite !no_sign_app.
      rewrite !pad_no_sign by (simpl; lia).
      destruct (us =? 0)%Z; [reflexivity|].
      rewrite no_sign_app, pad_no_sign by (simpl; lia). reflexivity. }
  unfold timestr, frac.
  rewrite parse_time_fields by lia.
  change (parse_hh_mm_ss_ff (U "00:00")) with (Some (0, 0, 0, 0)%Z).
  cbn. unfold checked. now rewrite Hv.
Qed.

End ReadBack.

(** The reference runtime. *)
#[export] Instance ref_runtime : Runtime := {|
  str_lower := reference.lower;
  float_of_str := reference.float_of_str;
  str_of_other := reference.str_of_other;
  str_repr := reference.repr_str;
  json_loads := reference.loads;
  json_dumps := reference.dumps;
  fromisoformat := reference.fromisoformat;
  fromisoformat_error := reference.fromisoformat_error;
  fromisoformat_isoformat := fromisoformat_isoformat_utc;
  local_utcoffset := fun _ => 0%Z;
  sql_numeric := pyfloat;
  pg_text_in := reference.pg_text_in;
  pg_numeric_in := reference.pg_numeric_in;
  pg_timestamptz_in := reference.pg_timestamptz_in
|}.

(** * validator.py: validation is exhaustive *)

Section ValidatorFacts.
Context {rt : Runtime}.
Import validator rules.

Lemma too_short_nonempty (v : pyval) : too_short v = negb (nonempty_text v).
Proof.
  destruct v as [| | | |s| |]; try reflexivity.
  simpl. now destruct (strip s).
Qed.

(** On a float that is a number, [>= 0] is the negation of [< 0]. *)
Lemma f_le_zero_negb_lt (f : pyfloat) :
  f_is_nan f = false -> f_le f_zero f = negb (f_lt f f_zero).
Proof.
  destruct f as [s|s| |s m e]; try destruct s; try reflexivity; discriminate.
Qed.

(** A float that is [>= 0] is not [< 0]. *)
Lemma f_le_zero_not_lt (f : pyfloat) :
  f_le f_zero f = true -> f_lt f f_zero = false.
Proof.
  destruct f as [s|s| |s m e]; try destruct s; try reflexivity; discriminate.
Qed.

(** The price of an item is a float that is no number. *)
Definition price_is_nan (it : pyval) : bool :=
  match it with
  | PDict d =>
      match py_float (dict_get "price" d) with
      | Ok f => f_is_nan f
      | Raise _ => false
      end
  | _ => false
  end.

(** No item of the document has such a price. *)
Definition prices_are_numbers (d : pydict) : bool :=
  match dict_get "items" d with
  | PList l => forallb (fun it => negb (price_is_nan it)) l
  | _ => true
  end.

(** The messages of the loop body are those of the rules the item
    violates, unless its price is NaN. *)
Lemma check_item_violations (i : nat) (it : pyval) :
  price_is_nan it = false ->
  check_item i it = map message (item_violations i it).
Proof.
  unfold check_item, item_violations, item_rules, price_is_nan.
  destruct it as [| | | | | |d]; try reflexivity.
  cbn [filter item_holds].
  rewrite !too_short_nonempty.
  destruct (nonempty_text (dict_get "product" d)),
           (nonempty_text (dict_get "unit" d)),
           (py_float (dict_get "price" d)) as [f|e];
    intro Hnan;
    cbn [negb is_ok map app]; try rewrite (f_le_zero_negb_lt f Hnan);
    try destruct (f_lt f f_zero); reflexivity.
Qed.

Lemma check_items_violations (l : list pyval) (i : nat) :
  forallb (fun it => negb (price_is_nan it)) l = true ->
  check_items i l = map message (items_violations i l).
Proof.
  revert i; induction l as [|it l IH]; intros i H; [reflexivity|].
  simpl in H. apply andb_true_iff in H as [Hit Hl].
  apply negb_true_iff in Hit.
  simpl. now rewrite map_app, check_item_violations, IH.
Qed.

(** The loop body has no message for an item that violates no rule. *)
Lemma check_item_no_violation (i : nat) (it : pyval) :
  item_violations i it = [] -> check_item i it = [].
Proof.
  unfold check_item, item_violations, item_rules.
  destruct it as [| | | | | |d]; try discriminate.
  cbn [filter item_holds].
  rewrite !too_short_nonempty.
  destruct (nonempty_text (dict_get "product" d)); [|discriminate].
  destruct (nonempty_text (dict_get "unit" d)); [|discriminate].
  destruct (py_float (dict_get "price" d)) as [f|e]; [|discriminate].
  cbn [negb is_ok app].
  destruct (f_le f_zero f) eqn:E; [|discriminate].
  now rewrite (f_le_zero_not_lt f E).
Qed.

Lemma check_items_no_violation (l : list pyval) (i : nat) :
  items_violations i l = [] -> check_items i l = [].
Proof.
  revert i; induction l as [|it l IH]; intros i H; [reflexivity|].
  simpl in H. apply app_eq_nil in H as [Hit Hl].
  simpl. now rewrite check_item_no_violation, IH.
Qed.

(** The messages [validate_doc] collects on an object whose [type] can be
    hashed: those of the violated rules 1 to 5, then those of the loop. *)
Lemma validate_doc_messages (d : pydict) :
  hashable (dict_get "type" d) = true ->
  validate_doc (PDict d)
  = _err (map message (filter (fun r => negb (doc_holds d r))
                              [Provider; Branch; DocType; Timestamp; Items])
          ++ match dict_get "items" d with
             | PList l => check_items 0 l
             | _ => []
             end).
Proof.
  intro Hh. unfold validate_doc.
  cbn [py_get rbind filter doc_holds app].
  rewrite !too_short_nonempty.
  assert (Ht : not_in_ALLOWED_TYPES (dict_get "type" d)
               = Ok (negb (doc_holds d DocType))).
  { cbn [doc_holds]. destruct (dict_get "type" d); try reflexivity;
      try discriminate Hh.
    cbn. now rewrite orb_false_r. }
  rewrite Ht. cbn [rbind doc_holds].
  assert (Hts : bad_timestamp (dict_get "timestamp" d)
                = negb (match dict_get "timestamp" d with
                        | PStr s => endswith (U "Z") s
                        | _ => false
                        end)).
  { now destruct (dict_get "timestamp" d). }
  rewrite Hts. f_equal.
  destruct (nonempty_text (dict_get "provider" d)),
           (nonempty_text (dict_get "branch" d)),
           (match dict_get "type" d with
            | PStr s => pystr_eqb s (U "pricesFull") || pystr_eqb s (U "promoFull")
            | _ => false
            end),
           (match dict_get "timestamp" d with
            | PStr s => endswith (U "Z") s
            | _ => false
            end);
    cbn [negb app map];
    (destruct (dict_get "items" d) as [| | | | |[|it l]|];
     cbn [negb app map check_items]; rewrite ?app_nil_r; reflexivity).
Qed.

(** When no price is NaN, the validator raises the messages of exactly
    the violated rules. *)
Lemma validate_doc_violations (d : pydict) :
  hashable (dict_get "type" d) = true ->
  prices_are_numbers d = true ->
  validate_doc (PDict d) = _err (map message (violations d)).
Proof.
  intros Hh Hn. rewrite (validate_doc_messages d Hh).
  unfold violations, prices_are_numbers in *. rewrite map_app. do 2 f_equal.
  destruct (dict_get "items" d); try reflexivity.
  now apply check_items_violations.
Qed.

(** A document that violates no rule is accepted. *)
Lemma validate_doc_no_violation (d : pydict) :
  violations d = [] -> validate_doc (PDict d) = Ok tt.
Proof.
  intro H.
  assert (Hh : hashable (dict_get "type" d) = true).
  { unfold violations in H. apply app_eq_nil in H as [H _].
    cbn [filter doc_holds] in H.
    destruct (dict_get "type" d); try reflexivity;
      repeat match type of H with
             | context [if negb ?b then _ else _] => destruct b; cbn [negb] in H
             end; discriminate. }
  rewrite (validate_doc_messages d Hh).
  unfold violations in H. apply app_eq_nil in H as [-> Hi].
  destruct (dict_get "items" d); try reflexivity.
  cbn [map app]. now rewrite check_items_no_violation.
Qed.

End ValidatorFacts.

Section ValidatorClaims.
Context {rt : Runtime}.
Import validator rules.

Lemma err_ok (msgs : list pystr) : _err msgs = Ok tt <-> msgs = [].
Proof.
  destruct msgs; simpl; split; intro H; try reflexivity; discriminate.
Qed.

(** Validation is exhaustive on the documents whose [type] can be hashed
    and whose prices are numbers: [validate_doc] raises if and only if
    some rule is violated; the error is then a [ValueError] whose text
    joins the messages of all the violated rules, in order, so that each
    of them occurs in it; and a document whose [items] are missing, not a
    list or empty is rejected with a text that contains the [items]
    violation. *)
Theorem validate_doc_exhaustive (d : pydict) :
  hashable (dict_get "type" d) = true ->
  prices_are_numbers d = true ->
  (validate_doc (PDict d) = Ok tt <-> violations d = [])
  /\ (violations d <> [] ->
      validate_doc (PDict d)
      = Raise (mkExc ValueError (join (U "; ") (map message (violations d)))))
  /\ (forall r, In r (violations d) ->
      exists pre post,
        validate_doc (PDict d)
        = Raise (mkExc ValueError (pre ++ message r ++ post)))
  /\ (match dict_get "items" d with PList (_ :: _) => False | _ => True end ->
      exists pre post,
        validate_doc (PDict d)
        = Raise (mkExc ValueError (pre ++ message Items ++ post))).
Proof.
  intros Hh Hn. rewrite (validate_doc_violations d Hh Hn).
  assert (Hraise : violations d <> [] ->
                   _err (map message (violations d))
                   = Raise (mkExc ValueError
                              (join (U "; ") (map message (violations d))))).
  { destruct (violations d); [congruence|reflexivity]. }
  assert (Hin : forall r, In r (violations d) ->
                exists pre post,
                  _err (map message (violations d))
                  = Raise (mkExc ValueError (pre ++ message r ++ post))).
  { intros r Hr. rewrite Hraise by (intro E; now rewrite E in Hr).
    destruct (join_contains (U "; ") (message r) (map message (violations d)))
      as (pre & post & E); [now apply in_map|].
    exists pre, post. now rewrite E. }
  repeat split.
  - intro H. apply err_ok in H. now destruct (violations d).
  - intros ->. reflexivity.
  - exact Hraise.
  - exact Hin.
  - intro Hitems. apply Hin. unfold violations.
    apply in_or_app. left. apply filter_In. split; [simpl; tauto|].
    cbn [doc_holds]. destruct (dict_get "items" d) as [| | | | |[|? ?]|];
      try reflexivity. destruct Hitems.
Qed.

End ValidatorClaims.

(** A witness of [validate_doc_exhaustive], a document without items and
    with an empty provider. *)
Lemma validate_doc_exhaustive_witness :
  let d := [(U "provider", PStr []); (U "branch", PStr (U "b1"));
            (U "type", PStr (U "pricesFull"));
            (U "timestamp", PStr (U "2024-01-05T10:00:00Z"))] in
  rules.hashable (dict_get "type" d) = true
  /\ prices_are_numbers d = true
  /\ validator.validate_doc (PDict d)
     = Raise (mkExc ValueError
                (U "'provider' is too short; 'items' must be a non-empty array")).
Proof.
  intro d. split; [reflexivity|]. split; [reflexivity|].
  destruct (validate_doc_exhaustive d eq_refl eq_refl) as (_ & H & _).
  apply H. discriminate.
Defined.

(** A [type] that is a list makes the membership test raise [TypeError]:
    the other violations are lost, and no aggregated error is raised. *)
Lemma validate_doc_unhashable_type :
  let d := [(U "provider", PStr []); (U "type", PList [])] in
  dict_lookup (U "items") d = None
  /\ validator.validate_doc (PDict d)
     = Raise (mkExc TypeError (U "unhashable type: 'list'"))
  /\ ~ (exists pre post,
         validator.validate_doc (PDict d)
         = Raise (mkExc ValueError (pre ++ rules.message rules.Items ++ post))).
Proof.
  intro d. split; [reflexivity|]. split; [reflexivity|].
  intros (pre & post & H). discriminate H.
Qed.

Section PriceRule.
Context {rt : Runtime}.
Import validator.

(** What [validate_doc] has checked of an accepted document. *)
Lemma validate_doc_ok_inv (doc : pyval) :
  validate_doc doc = Ok tt ->
  exists d it l,
    doc = PDict d
    /\ too_short (dict_get "provider" d) = false
    /\ too_short (dict_get "branch" d) = false
    /\ not_in_ALLOWED_TYPES (dict_get "type" d) = Ok false
    /\ bad_timestamp (dict_get "timestamp" d) = false
    /\ dict_get "items" d = PList (it :: l)
    /\ check_items 0 (it :: l) = [].
Proof.
  destruct doc as [| | | | | |d]; try discriminate.
  unfold validate_doc. cbn [py_get rbind app].
  destruct (not_in_ALLOWED_TYPES (dict_get "type" d)) as [bt|e] eqn:Et;
    [|discriminate].
  cbn [rbind]. intro H. apply err_ok in H.
  apply app_eq_nil in H as [H Hitems].
  apply app_eq_nil in H as [H Hts].
  apply app_eq_nil in H as [H Htype].
  apply app_eq_nil in H as [Hprov Hbranch].
  destruct (too_short (dict_get "provider" d)) eqn:E1; [discriminate|].
  destruct (too_short (dict_get "branch" d)) eqn:E2; [discriminate|].
  destruct bt; [discriminate|].
  destruct (bad_timestamp (dict_get "timestamp" d)) eqn:E3; [discriminate|].
  destruct (dict_get "items" d) as [| | | | |[|it l]|] eqn:Ei; try discriminate.
  exists d, it, l. repeat split; auto.
Qed.

(** What the loop has checked of an item it has no message for. *)
Lemma check_item_nil_inv (i : nat) (it : pyval) :
  check_item i it = [] ->
  exists itd price,
    it = PDict itd
    /\ too_short (dict_get "product" itd) = false
    /\ too_short (dict_get "unit" itd) = false
    /\ py_float (dict_get "price" itd) = Ok price
    /\ f_lt price f_zero = false.
Proof.
  destruct it as [| | | | | |itd]; try discriminate.
  unfold check_item. intro H.
  apply app_eq_nil in H as [Hp H]. apply app_eq_nil in H as [Hu Hpr].
  destruct (too_short (dict_get "product" itd)) eqn:E1; [discriminate|].
  destruct (too_short (dict_get "unit" itd)) eqn:E2; [discriminate|].
  destruct (py_float (dict_get "price" itd)) as [price|e] eqn:Ep; [|discriminate].
  destruct (f_lt price f_zero) eqn:El; [discriminate|].
  exists itd, price. repeat split; auto.
Qed.

Lemma check_items_nil_inv (l : list pyval) (i : nat) :
  check_items i l = [] -> forall it, In it l -> exists j, check_item j it = [].
Proof.
  revert i; induction l as [|x l IH]; intros i H it Hin; [destruct Hin|].
  simpl in H. apply app_eq_nil in H as [Hx Hl].
  destruct Hin as [->|Hin]; eauto.
Qed.

(** Every item of an accepted document has a price that [float] reads and
    that is not below zero. *)
Lemma validate_doc_ok_prices (d : pydict) (items : list pyval) (it : pyval) :
  validate_doc (PDict d) = Ok tt ->
  dict_get "items" d = PList items -> In it items ->
  exists itd price,
    it = PDict itd /\ py_float (dict_get "price" itd) = Ok price
    /\ f_lt price f_zero = false.
Proof.
  intros Hok Hitems Hin.
  destruct (validate_doc_ok_inv _ Hok) as (d' & it0 & l & Hd & _ & _ & _ & _ & Hi & Hc).
  injection Hd as <-. rewrite Hitems in Hi. injection Hi as ->.
  destruct (check_items_nil_inv _ _ Hc it Hin) as [j H].
  destruct (check_item_nil_inv _ _ H) as (itd & price & -> & _ & _ & Hp & Hl).
  eauto.
Qed.

(** A document with an item whose message list is not empty is rejected. *)
Lemma validate_doc_rejects_item (d : pydict) (items : list pyval) (it : pyval) :
  dict_get "items" d = PList items -> In it items ->
  (forall i, check_item i it <> []) ->
  validate_doc (PDict d) <> Ok tt.
Proof.
  intros Hitems Hin Hbad Hok.
  destruct (validate_doc_ok_inv _ Hok) as (d' & it0 & l & Hd & _ & _ & _ & _ & Hi & Hc).
  injection Hd as <-. rewrite Hitems in Hi. injection Hi as ->.
  destruct (check_items_nil_inv _ _ Hc it Hin) as [j H].
  now apply Hbad in H.
Qed.

(** A document with an item of negative price is rejected. *)
Lemma validate_doc_rejects_negative_price
  (d : pydict) (items : list pyval) (itd : pydict) (price : pyfloat) :
  dict_get "items" d = PList items -> In (PDict itd) items ->
  py_float (dict_get "price" itd) = Ok price -> f_lt price f_zero = true ->
  validate_doc (PDict d) <> Ok tt.
Proof.
  intros Hitems Hin Hp Hneg.
  apply (validate_doc_rejects_item d items (PDict itd) Hitems Hin).
  intros i H. apply check_item_nil_inv in H as (itd' & p' & E & _ & _ & Hp' & Hl).
  injection E as <-. congruence.
Qed.

(** A document with an item whose price is not a number is rejected. *)
Lemma validate_doc_rejects_non_numeric_price
  (d : pydict) (items : list pyval) (itd : pydict) (e : exc) :
  dict_get "items" d = PList items -> In (PDict itd) items ->
  py_float (dict_get "price" itd) = Raise e ->
  validate_doc (PDict d) <> Ok tt.
Proof.
  intros Hitems Hin Hp.
  apply (validate_doc_rejects_item d items (PDict itd) Hitems Hin).
  intros i H. apply check_item_nil_inv in H as (itd' & p' & E & _ & _ & Hp' & Hl).
  injection E as <-. congruence.
Qed.

End PriceRule.

(** C6: the code at the failing input.  The test [price < 0] lets the
    price NaN through: the document below is accepted, its price is a
    float, and that float is not [>= 0]; the normalizer keeps it and the
    flattener copies it into the row. *)
Theorem validate_doc_accepts_nan_price :
  let item := [(U "product", PStr (U "milk")); (U "unit", PStr (U "l"));
               (U "price", PFloat S754_nan)] in
  let d := [(U "provider", PStr (U "shop")); (U "branch", PStr (U "b1"));
            (U "type", PStr (U "pricesFull"));
            (U "timestamp", PStr (U "2024-01-05T10:00:00Z"));
            (U "items", PList [PDict item])] in
  validator.validate_doc (PDict d) = Ok tt
  /\ py_float (dict_get "price" item) = Ok S754_nan
  /\ f_le f_zero S754_nan = false
  /\ f_lt S754_nan f_zero = false
  /\ validator.doc_to_rows (PDict d)
     = Ok [PDict [(U "provider", PStr (U "shop")); (U "branch", PStr (U "b1"));
                  (U "doc_type", PStr (U "pricesFull"));
                  (U "ts", PStr (U "2024-01-05T10:00:00Z"));
                  (U "product", PStr (U "milk")); (U "unit", PStr (U "l"));
                  (U "price", PFloat S754_nan);
                  (U "src_key", PNone); (U "etag", PNone)]].
Proof. repeat split. Qed.

Section Flattener.
Context {rt : Runtime}.
Import validator.

(** The row of an item [itd] of the document [d], whose price is [price]. *)
Definition row_for (d itd : pydict) (price : pyfloat) : pyval :=
  PDict [(U "provider", dict_get "provider" d);
         (U "branch", dict_get "branch" d);
         (U "doc_type", dict_get "type" d);
         (U "ts", dict_get "timestamp" d);
         (U "product", dict_get "product" itd);
         (U "unit", dict_get "unit" itd);
         (U "price", PFloat price);
         (U "src_key", dict_get "src_key" d);
         (U "etag", dict_get "etag" d)].

(** [f] is the value of [v] as a float: [v] itself when it is a float,
    1.0 or 0.0 when it is a bool, the binary64 number nearest to it (ties
    to even) when it is an int within the range of the floats, the number
    it spells when it is a string.  Nothing else has a value. *)
Definition float_value (v : pyval) (f : pyfloat) : Prop :=
  match v with
  | PFloat f0 => f = f0
  | PBool true => f = f_one
  | PBool false => f = f_zero
  | PInt n =>
      f = binary_normalize 53 1024 n 0 false /\ forall s, f <> S754_infinity s
  | PStr s => float_of_str s = Some f
  | _ => False
  end.

(** A row is made of an item when the item is an object and the price of
    the row is the value of the price of the item. *)
Definition item_row (d : pydict) (it row : pyval) : Prop :=
  exists itd price,
    it = PDict itd /\ float_value (dict_get "price" itd) price
    /\ row = row_for d itd price.

Lemma py_float_value (v : pyval) (f : pyfloat) :
  py_float v = Ok f -> float_value v f.
Proof.
  destruct v as [|[|]|n|f0|s|l|d]; cbn [py_float float_value]; try discriminate.
  - now intros [= <-].
  - now intros [= <-].
  - unfold float_of_Z.
    destruct (binary_normalize 53 1024 n 0 false) eqn:E; try discriminate;
      intros [= <-]; split; try reflexivity; discriminate.
  - now intros [= <-].
  - destruct (float_of_str s); [now intros [= <-]|discriminate].
Qed.

Lemma dict_item_present (k : string) (d : pydict) :
  dict_get k d <> PNone -> dict_item k d = Ok (dict_get k d).
Proof.
  unfold dict_get, dict_item. destruct (dict_lookup (U k) d); congruence.
Qed.

Lemma too_short_present (k : string) (d : pydict) :
  too_short (dict_get k d) = false -> dict_item k d = Ok (dict_get k d).
Proof.
  intro H. apply dict_item_present. intro E. now rewrite E in H.
Qed.

Lemma rows_of_checked_items (d : pydict) (l : list pyval) :
  too_short (dict_get "provider" d) = false ->
  too_short (dict_get "branch" d) = false ->
  not_in_ALLOWED_TYPES (dict_get "type" d) = Ok false ->
  bad_timestamp (dict_get "timestamp" d) = false ->
  forall i, check_items i l = [] ->
  exists rows, map_res (row_of (PDict d)) l = Ok rows
               /\ Forall2 (item_row d) l rows.
Proof.
  intros Hp Hb Ht Hts.
  assert (Etype : dict_item "type" d = Ok (dict_get "type" d)).
  { apply dict_item_present. intro E. rewrite E in Ht. discriminate. }
  assert (Ets : dict_item "timestamp" d = Ok (dict_get "timestamp" d)).
  { apply dict_item_present. intro E. rewrite E in Hts. discriminate. }
  induction l as [|it l IH]; intros i Hc.
  - exists []. split; [reflexivity|constructor].
  - simpl in Hc. apply app_eq_nil in Hc as [Hit Hl].
    destruct (IH _ Hl) as (rows & Hrows & Hall).
    destruct (check_item_nil_inv _ _ Hit) as (itd & price & -> & Hpr & Hu & Hf & _).
    exists (row_for d itd price :: rows). split.
    + cbn [map_res]. unfold row_of at 1. cbn [py_item py_get].
      rewrite (too_short_present "provider" d Hp),
              (too_short_present "branch" d Hb), Etype, Ets,
              (too_short_present "product" itd Hpr),
              (too_short_present "unit" itd Hu).
      cbn [rbind].
      rewrite dict_item_present
        by (intro E; rewrite E in Hf; discriminate).
      cbn [rbind]. rewrite Hf. cbn [rbind]. rewrite Hrows. reflexivity.
    + constructor; [|exact Hall]. exists itd, price.
      auto using py_float_value.
Qed.

(** C7 (amended).  On every document that passes [validate_doc],
    [doc_to_rows] returns one row per item, in the order of the items: the
    row copies provider, branch, type (as [doc_type]) and timestamp (as
    [ts]) from the document, product and unit from its item, and the
    [src_key] and [etag] of the document; its price is the value of the
    price of the item as a float, which is the price of the item itself
    when that is a float. *)
Theorem doc_to_rows_of_valid_doc (doc : pyval) :
  validate_doc doc = Ok tt ->
  exists d items rows,
    doc = PDict d /\ dict_get "items" d = PList items
    /\ doc_to_rows doc = Ok rows
    /\ length rows = length items
    /\ Forall2 (item_row d) items rows.
Proof.
  intro Hok.
  destruct (validate_doc_ok_inv _ Hok)
    as (d & it & l & -> & Hp & Hb & Ht & Hts & Hi & Hc).
  destruct (rows_of_checked_items d (it :: l) Hp Hb Ht Hts 0 Hc)
    as (rows & Hrows & Hall).
  exists d, (it :: l), rows. repeat split; auto.
  - unfold doc_to_rows. cbn [py_item].
    rewrite dict_item_present by (rewrite Hi; discriminate).
    rewrite Hi. cbn [rbind py_iter]. exact Hrows.
  - symmetry. eapply Forall2_length; eassumption.
Qed.

End Flattener.

(** C7: a witness of [doc_to_rows_of_valid_doc], a document of two items. *)
Lemma doc_to_rows_of_valid_doc_witness :
  let doc :=
    PDict [(U "provider", PStr (U "shop")); (U "branch", PStr (U "b1"));
           (U "type", PStr (U "promoFull"));
           (U "timestamp", PStr (U "2024-01-05T10:00:00Z"));
           (U "items",
            PList [PDict [(U "product", PStr (U "milk")); (U "unit", PStr (U "l"));
                          (U "price", PFloat f_one)];
                   PDict [(U "product", PStr (U "tea")); (U "unit", PStr (U "g"));
                          (U "price", PInt 3)]]);
           (U "src_key", PStr (U "k")); (U "etag", PStr (U "e"))] in
  validator.validate_doc doc = Ok tt
  /\ exists d items rows,
       doc = PDict d /\ dict_get "items" d = PList items
       /\ validator.doc_to_rows doc = Ok rows
       /\ length rows = length items
       /\ Forall2 (item_row d) items rows.
Proof.
  intro doc. split; [reflexivity|].
  apply (doc_to_rows_of_valid_doc doc). reflexivity.
Defined.

(** C7 as stated fails: the price of a row is not always a copy of the
    price of its item.  The document below passes [validate_doc]; the
    price of its first item is the int 9007199254740993 and the price of
    the first row is the float 9007199254740992.0, the price of its second
    item is the string 2.5 and the price of the second row is the float
    2.5. *)
Lemma doc_to_rows_converts_price :
  let big := [(U "product", PStr (U "milk")); (U "unit", PStr (U "l"));
              (U "price", PInt 9007199254740993)] in
  let text := [(U "product", PStr (U "tea")); (U "unit", PStr (U "g"));
               (U "price", PStr (U "2.5"))] in
  let doc :=
    PDict [(U "provider", PStr (U "shop")); (U "branch", PStr (U "b1"));
           (U "type", PStr (U "promoFull"));
           (U "timestamp", PStr (U "2024-01-05T10:00:00Z"));
           (U "items", PList [PDict big; PDict text])] in
  validator.validate_doc doc = Ok tt
  /\ exists row1 row2,
       validator.doc_to_rows doc = Ok [PDict row1; PDict row2]
       /\ dict_get "price" row1 = PFloat (S754_finite false 4503599627370496 1)
       /\ dict_get "price" row1 <> dict_get "price" big
       /\ dict_get "price" row2 = PFloat (S754_finite false 5629499534213120 (-51))
       /\ dict_get "price" row2 <> dict_get "price" text.
Proof.
  intros big text doc. split; [vm_compute; reflexivity|].
  do 2 eexists. split; [vm_compute; reflexivity|].
  repeat split; try (vm_compute; reflexivity); discriminate.
Qed.

(** ** Trimming *)

Lemma drop_while_head (p : N -> bool) (s : pystr) :
  match drop_while p s with
  | [] => True
  | c :: _ => p c = false
  end.
Proof.
  induction s as [|c s IH]; simpl; [exact I|].
  destruct (p c) eqn:E; [exact IH|exact E].
Qed.

Lemma drop_while_id (p : N -> bool) (c : N) (s : pystr) :
  p c = false -> drop_while p (c :: s) = c :: s.
Proof. intro H. simpl. now rewrite H. Qed.

Lemma drop_while_keeps_last (p : N -> bool) (s : pystr) (c : N) :
  p c = false -> exists l, drop_while p (s ++ [c]) = l ++ [c].
Proof.
  intro H. induction s as [|x s IH]; simpl.
  - rewrite H. now exists [].
  - destruct (p x); [exact IH|].
    now exists (x :: s).
Qed.

(** A string without white space at either end is its own trimming. *)
Lemma strip_fixed (c : N) (s : pystr) (z : N) :
  is_space c = false -> is_space z = false ->
  strip (c :: s ++ [z]) = c :: s ++ [z].
Proof.
  intros Hc Hz. unfold strip, lstrip, rstrip.
  rewrite drop_while_id by assumption.
  change (c :: s ++ [z]) with ((c :: s) ++ [z]).
  rewrite rev_app_distr.
  change (rev [z] ++ rev (c :: s)) with (z :: rev (c :: s)).
  rewrite drop_while_id by assumption.
  change (rev (z :: rev (c :: s))) with (rev (rev (c :: s)) ++ [z]).
  now rewrite rev_involutive.
Qed.

Lemma strip_shape (s : pystr) :
  strip s = [] \/
  (exists c, strip s = [c] /\ is_space c = false) \/
  exists c m z, strip s = c :: m ++ [z]
                /\ is_space c = false /\ is_space z = false.
Proof.
  unfold strip, lstrip, rstrip.
  pose proof (drop_while_head is_space s) as Hh.
  destruct (drop_while is_space s) as [|c a]; [now left|].
  right.
  destruct (drop_while_keeps_last is_space (rev a) c Hh) as [l Hl].
  cbn [rev]. rewrite Hl, rev_app_distr. cbn [rev app].
  pose proof (drop_while_head is_space (rev a ++ [c])) as Hz.
  rewrite Hl in Hz.
  destruct l as [|z l].
  - left. exists c. now split.
  - right. cbn [app] in Hz. cbn [rev].
    exists c, (rev l), z. repeat split; assumption.
Qed.

Lemma strip_idempotent (s : pystr) : strip (strip s) = strip s.
Proof.
  destruct (strip_shape s) as [E|[(c & E & Hc)|(c & m & z & E & Hc & Hz)]];
    rewrite E.
  - reflexivity.
  - unfold strip, lstrip, rstrip. simpl. rewrite Hc. simpl. now rewrite Hc.
  - now apply strip_fixed.
Qed.

(** ** The UTC suffix *)

Lemma endswith_last (c : N) (s : pystr) : endswith [c] (s ++ [c]) = true.
Proof.
  unfold endswith. rewrite rev_app_distr. simpl. now rewrite N.eqb_refl.
Qed.

Lemma endswith_other (c z : N) (s : pystr) :
  c <> z -> endswith [c] (s ++ [z]) = false.
Proof.
  intro H. unfold endswith. rewrite rev_app_distr. simpl.
  apply N.eqb_neq in H. now rewrite H.
Qed.

Definition no_plus (s : pystr) : bool := forallb (fun c => negb (N.eqb c 43)) s.

(** The only [+00:00] of a text without any other plus sign is replaced. *)
Lemma replace_utc_suffix (body : pystr) :
  no_plus body = true ->
  replace (U "+00:00") (U "Z") (body ++ U "+00:00") = body ++ U "Z".
Proof.
  unfold replace. induction body as [|c body IH]; intro H; [reflexivity|].
  simpl in H. apply andb_true_iff in H as [Hc Hb].
  apply negb_true_iff in Hc.
  cbn [app replace_from].
  assert (E : startswith (U "+00:00") (c :: body ++ U "+00:00") = false).
  { change (U "+00:00") with (43%N :: U "00:00") at 1. cbn [startswith].
    rewrite N.eqb_sym, Hc. reflexivity. }
  rewrite E. now rewrite IH.
Qed.

(** * normalizer.py *)

Lemma rbind_raise_inv {A B} (r : res A) (k : A -> res B) (e : exc) :
  rbind r k = Raise e ->
  r = Raise e \/ exists a, r = Ok a /\ k a = Raise e.
Proof.
  destruct r as [a|e']; cbn [rbind]; intro H.
  - right. now exists a.
  - left. now injection H as ->.
Qed.

Section NormalizerFacts.
Context {rt : Runtime} (env : environ).
Import normalizer.

(** The string [_to_utc_z] hands to [fromisoformat]. *)
Definition prepared (s : pystr) : pystr :=
  if endswith (U "Z") s then replace (U "Z") (U "+00:00") s else s.

(** [_norm_text(msg.get("timestamp"))] *)
Definition timestamp_text (d : pydict) : pystr :=
  _norm_text (dict_get "timestamp" d).

(** [msg.get("items", [])] *)
Definition items_of (d : pydict) : pyval :=
  dict_get_default "items" (PList []) d.

Definition is_object (v : pyval) : bool :=
  match v with
  | PDict _ => true
  | _ => false
  end.

Lemma digit_not_space (c : N) : reference.is_digit c = true -> is_space c = false.
Proof.
  unfold reference.is_digit. intro H. apply andb_true_iff in H as [H1 H2].
  apply N.leb_le in H1, H2.
  assert (E : (c = 48 \/ c = 49 \/ c = 50 \/ c = 51 \/ c = 52 \/ c = 53
               \/ c = 54 \/ c = 55 \/ c = 56 \/ c = 57)%N) by lia.
  repeat (destruct E as [->|E]; [reflexivity|]). now subst.
Qed.

Lemma digits_no_plus (s : pystr) :
  forallb reference.is_digit s = true -> no_plus s = true.
Proof.
  intro H. apply forallb_forall. intros c Hc.
  pose proof (proj1 (forallb_forall _ _) H c Hc) as Hd.
  unfold reference.is_digit in Hd. apply andb_true_iff in Hd as [H1 H2].
  apply N.leb_le in H1, H2. apply negb_true_iff, N.eqb_neq. lia.
Qed.

Lemma no_plus_app (a b : pystr) : no_plus (a ++ b) = no_plus a && no_plus b.
Proof. apply forallb_app. Qed.

Lemma str_of_N_no_plus (n : N) : no_plus (str_of_N n) = true.
Proof. apply digits_no_plus. unfold str_of_N. now apply dec_digits_all. Qed.

Lemma repeat_zero_no_plus (k : nat) : no_plus (repeat 48%N k) = true.
Proof. induction k; [reflexivity|exact IHk]. Qed.

Lemma pad_no_plus (w : nat) (n : Z) : no_plus (datetime.pad w n) = true.
Proof.
  destruct n; unfold datetime.pad; cbn [no_plus forallb];
    rewrite ?no_plus_app, ?repeat_zero_no_plus, ?str_of_N_no_plus;
    reflexivity.
Qed.

Lemma naive_text_no_plus (d : datetime.t) : no_plus (datetime.naive_text d) = true.
Proof.
  unfold datetime.naive_text. rewrite !no_plus_app, !pad_no_plus.
  destruct (datetime.microsecond d =? 0)%Z; [reflexivity|].
  now rewrite no_plus_app, pad_no_plus.
Qed.

(** The rendering of a UTC date-time ends with [Z] in place of the
    offset. *)
Lemma render_utc (u : datetime.t) :
  datetime.tzoffset u = Some 0%Z ->
  replace (U "+00:00") (U "Z") (datetime.isoformat u) = datetime.utc_text u.
Proof.
  intro H. unfold datetime.isoformat, datetime.utc_text. rewrite H.
  change (datetime.format_offset (Some 0%Z)) with (U "+00:00").
  apply replace_utc_suffix, naive_text_no_plus.
Qed.

Lemma utc_text_ends_with_Z (u : datetime.t) :
  endswith (U "Z") (datetime.utc_text u) = true.
Proof. unfold datetime.utc_text. apply (endswith_last 90%N). Qed.

Lemma astimezone_utc_offset (f : Z -> Z) (d u : datetime.t) :
  datetime.astimezone_utc f d = Ok u -> datetime.tzoffset u = Some 0%Z.
Proof.
  unfold datetime.astimezone_utc.
  destruct (datetime.tzoffset d) as [[|p|p]|] eqn:E; intro H.
  - injection H as <-. exact E.
  - destruct (datetime.sub_us d (Z.pos p)); [|discriminate].
    now injection H as <-.
  - destruct (datetime.sub_us d (Z.neg p)); [|discriminate].
    now injection H as <-.
  - destruct (datetime.sub_us d _); [|discriminate].
    now injection H as <-.
Qed.

Lemma to_utc_z_unfold (ts : pystr) :
  _to_utc_z ts
  = (dt <- parse_iso (prepared (strip ts)) ;;
     utc <- datetime.astimezone_utc local_utcoffset dt ;;
     Ok (replace (U "+00:00") (U "Z") (datetime.isoformat utc)))%res.
Proof.
  unfold _to_utc_z, prepared. now destruct (endswith (U "Z") (strip ts)).
Qed.

Lemma to_utc_z_ok (ts : pystr) (dt u : datetime.t) :
  fromisoformat (prepared (strip ts)) = Some dt ->
  datetime.astimezone_utc local_utcoffset dt = Ok u ->
  _to_utc_z ts = Ok (datetime.utc_text u).
Proof.
  intros Hp Ha. rewrite to_utc_z_unfold. unfold parse_iso. rewrite Hp.
  cbn [rbind]. rewrite Ha. cbn [rbind].
  now rewrite render_utc by (eapply astimezone_utc_offset; eassumption).
Qed.

Lemma to_utc_z_raise (ts : pystr) (e : exc) :
  _to_utc_z ts = Raise e ->
  fromisoformat (prepared (strip ts)) = None
  \/ exists dt, fromisoformat (prepared (strip ts)) = Some dt
                /\ datetime.astimezone_utc local_utcoffset dt = Raise e.
Proof.
  rewrite to_utc_z_unfold. unfold parse_iso.
  destruct (fromisoformat (prepared (strip ts))) as [dt|]; [|now left].
  cbn [rbind]. intro H. right. exists dt. split; [reflexivity|].
  destruct (datetime.astimezone_utc local_utcoffset dt); [discriminate|].
  cbn [rbind] in H. now injection H as ->.
Qed.

Lemma valid_replace_tzinfo_utc (d : datetime.t) :
  datetime.valid d = true -> datetime.valid (datetime.replace_tzinfo_utc d) = true.
Proof.
  unfold datetime.valid. destruct d as [y m dd h mi s us tz].
  cbn [datetime.year datetime.month datetime.day datetime.hour datetime.minute
       datetime.second datetime.microsecond datetime.tzoffset
       datetime.replace_tzinfo_utc].
  intro H. apply andb_true_iff in H as [H _]. rewrite H. reflexivity.
Qed.

(** The ISO text of a valid UTC date-time has no white space at its ends
    and does not end with [Z]. *)
Lemma isoformat_utc_shape (d : datetime.t) :
  datetime.valid d = true -> datetime.tzoffset d = Some 0%Z ->
  exists c m, datetime.isoformat d = c :: m ++ [48%N] /\ is_space c = false.
Proof.
  intros Hv Ht.
  assert (Hy : (0 <= datetime.year d < 10 ^ Z.of_nat 4)%Z).
  { unfold datetime.valid in Hv.
    repeat (apply andb_true_iff in Hv as [Hv ?]).
    repeat match goal with
           | H : (_ <=? _)%Z = true |- _ => apply Z.leb_le in H
           | H : (_ <? _)%Z = true |- _ => apply Z.ltb_lt in H
           end.
    simpl. lia. }
  destruct (pad_spec 3 _ Hy) as (Hl & Hd & _).
  unfold datetime.isoformat, datetime.naive_text. rewrite Ht.
  change (datetime.format_offset (Some 0%Z)) with (U "+00:0" ++ [48%N]).
  destruct (datetime.pad 4 (datetime.year d)) as [|c tl]; [discriminate|].
  simpl in Hd. apply andb_true_iff in Hd as [Hc _].
  eexists c, _. split; [|now apply digit_not_space].
  rewrite app_assoc. cbn [app]. reflexivity.
Qed.

(** [_to_utc_z] of the current instant. *)
Lemma to_utc_z_now (now : datetime.t) :
  datetime.valid now = true ->
  _to_utc_z (datetime.isoformat (datetime.replace_tzinfo_utc now))
  = Ok (datetime.utc_text (datetime.replace_tzinfo_utc now)).
Proof.
  intro Hv. set (u := datetime.replace_tzinfo_utc now).
  assert (Hu : datetime.valid u = true) by now apply valid_replace_tzinfo_utc.
  assert (Ht : datetime.tzoffset u = Some 0%Z) by reflexivity.
  destruct (isoformat_utc_shape u Hu Ht) as (c & m & E & Hc).
  apply (to_utc_z_ok _ u u).
  - rewrite E, strip_fixed by (assumption || reflexivity).
    assert (Hend : endswith (U "Z") (c :: m ++ [48%N]) = false)
      by (apply (endswith_other 90%N 48%N (c :: m)); discriminate).
    unfold prepared. rewrite Hend, <- E. now apply fromisoformat_isoformat.
  - reflexivity.
Qed.

Lemma norm_items_ok (its : list pyval) :
  forallb is_object its = true ->
  exists items, map_res (norm_item env) its = Ok items.
Proof.
  induction its as [|it its IH]; intro H; [now exists []|].
  simpl in H. apply andb_true_iff in H as [Hit Hrest].
  destruct (IH Hrest) as [items E].
  destruct it; try discriminate.
  eexists. cbn [map_res]. unfold norm_item at 1. cbn [py_get rbind].
  rewrite E. reflexivity.
Qed.

Lemma norm_items_raise (its : list pyval) (e : exc) :
  map_res (norm_item env) its = Raise e -> forallb is_object its = false.
Proof.
  intro H. destruct (forallb is_object its) eqn:E; [|reflexivity].
  destruct (norm_items_ok its E) as [items E']. congruence.
Qed.

Lemma normalize_message_unfold (now : datetime.t) (d : pydict) :
  normalize_message env now (PDict d)
  = (ts <- _to_utc_z (str_or (timestamp_text d)
                        (datetime.isoformat (datetime.replace_tzinfo_utc now))) ;;
     its <- py_iter (items_of d) ;;
     items <- map_res (norm_item env) its ;;
     Ok (PDict [(U "provider", PStr (str_lower (_norm_text (dict_get "provider" d))));
                (U "branch", PStr (str_or (_norm_text (dict_get "branch" d))
                                          (DEFAULT_BRANCH env)));
                (U "type", PStr (_canon_type (_norm_text (dict_get "type" d))));
                (U "timestamp", PStr ts);
                (U "items", PList items);
                (U "src_key", PStr (_norm_text (dict_get "src_key" d)));
                (U "etag", PStr (_norm_text (dict_get "etag" d)))]))%res.
Proof. reflexivity. Qed.

Lemma str_or_nonempty (a b : pystr) : a <> [] -> str_or a b = a.
Proof. destruct a; [congruence|reflexivity]. Qed.

Lemma timestamp_text_stripped (d : pydict) :
  strip (timestamp_text d) = timestamp_text d.
Proof. unfold timestamp_text, _norm_text. apply strip_idempotent. Qed.

(** The normalized document, when the timestamp and the items pass. *)
Lemma normalize_message_ok (now : datetime.t) (d : pydict) (ts : pystr)
  (its : list pyval) :
  _to_utc_z (str_or (timestamp_text d)
               (datetime.isoformat (datetime.replace_tzinfo_utc now))) = Ok ts ->
  py_iter (items_of d) = Ok its -> forallb is_object its = true ->
  exists doc, normalize_message env now (PDict d) = Ok (PDict doc)
              /\ dict_get "timestamp" doc = PStr ts
              /\ dict_get "branch" doc
                 = PStr (str_or (_norm_text (dict_get "branch" d))
                                (DEFAULT_BRANCH env)).
Proof.
  intros Hts Hit Hobj. destruct (norm_items_ok its Hobj) as [items Hitems].
  rewrite normalize_message_unfold, Hts. cbn [rbind]. rewrite Hit.
  cbn [rbind]. rewrite Hitems. cbn [rbind].
  eexists. split; [reflexivity|]. split; reflexivity.
Qed.

(** C5 (amended).  On a message object whose items are absent or a list
    of objects, [normalize_message] fails exactly when the timestamp is a
    text that [fromisoformat] rejects, or one it reads as an instant whose
    conversion to UTC leaves the years 1 to 9999.  Without timestamp the
    document gets the current instant, and with a readable, convertible
    timestamp that instant, rendered in UTC with [Z] in place of the
    offset [+00:00]; the timestamp [2024-01-05T10:00:00+00:00] becomes
    [2024-01-05T10:00:00Z]. *)
Theorem normalize_message_timestamp (now : datetime.t) (d : pydict)
  (its : list pyval) :
  datetime.valid now = true ->
  items_of d = PList its -> forallb is_object its = true ->
  (forall e,
     normalize_message env now (PDict d) = Raise e <->
     timestamp_text d <> []
     /\ ((fromisoformat (prepared (timestamp_text d)) = None
          /\ e = mkExc ValueError
                       (fromisoformat_error (prepared (timestamp_text d))))
         \/ exists dt,
              fromisoformat (prepared (timestamp_text d)) = Some dt
              /\ datetime.astimezone_utc local_utcoffset dt = Raise e))
  /\ (timestamp_text d = [] ->
      exists doc,
        normalize_message env now (PDict d) = Ok (PDict doc)
        /\ dict_get "timestamp" doc
           = PStr (datetime.utc_text (datetime.replace_tzinfo_utc now)))
  /\ (forall dt u,
        timestamp_text d <> [] ->
        fromisoformat (prepared (timestamp_text d)) = Some dt ->
        datetime.astimezone_utc local_utcoffset dt = Ok u ->
        exists doc,
          normalize_message env now (PDict d) = Ok (PDict doc)
          /\ dict_get "timestamp" doc = PStr (datetime.utc_text u)
          /\ datetime.tzoffset u = Some 0%Z)
  /\ (forall u, endswith (U "Z") (datetime.utc_text u) = true
                /\ (datetime.tzoffset u = Some 0%Z ->
                    datetime.utc_text u
                    = replace (U "+00:00") (U "Z") (datetime.isoformat u)))
  /\ (fromisoformat (U "2024-01-05T10:00:00+00:00")
      = Some (datetime.mk 2024 1 5 10 0 0 0 (Some 0%Z)) ->
      _to_utc_z (U "2024-01-05T10:00:00+00:00") = Ok (U "2024-01-05T10:00:00Z")).
Proof.
  intros Hv Hitems Hobj.
  assert (Hit : py_iter (items_of d) = Ok its) by now rewrite Hitems.
  split; [|split; [|split; [|split]]].
  - intro e. split.
    + intro H. rewrite normalize_message_unfold in H.
      apply rbind_raise_inv in H as [H|(ts & _ & H)].
      * destruct (timestamp_text d) as [|c t] eqn:Et.
        -- cbn [str_or] in H. rewrite (to_utc_z_now now Hv) in H. discriminate.
        -- cbn [str_or] in H. rewrite <- Et in *.
           split; [rewrite Et; discriminate|].
           rewrite to_utc_z_unfold, timestamp_text_stripped in H.
           unfold parse_iso in H.
           destruct (fromisoformat (prepared (timestamp_text d))) as [dt|].
           ++ right. exists dt. split; [reflexivity|]. cbn [rbind] in H.
              destruct (datetime.astimezone_utc local_utcoffset dt);
                [discriminate|].
              cbn [rbind] in H. now injection H as ->.
           ++ left. cbn [rbind] in H. now injection H as <-.
      * exfalso. rewrite Hit in H. cbn [rbind] in H.
        apply rbind_raise_inv in H as [H|(items & _ & H)]; [|discriminate].
        apply norm_items_raise in H. congruence.
    + intros [Hne Hcause]. rewrite normalize_message_unfold.
      rewrite str_or_nonempty by assumption.
      rewrite to_utc_z_unfold, timestamp_text_stripped. unfold parse_iso.
      destruct Hcause as [[Hp ->]|(dt & Hp & Ha)]; rewrite Hp; cbn [rbind];
        [reflexivity|].
      rewrite Ha. reflexivity.
  - intro Et.
    destruct (normalize_message_ok now d
                (datetime.utc_text (datetime.replace_tzinfo_utc now)) its)
      as (doc & H1 & H2 & _);
      [rewrite Et; cbn [str_or]; now apply to_utc_z_now|assumption..|].
    eauto.
  - intros dt u Et Hp Ha.
    destruct (normalize_message_ok now d (datetime.utc_text u) its)
      as (doc & H1 & H2 & _); try assumption.
    + rewrite str_or_nonempty by assumption.
      apply (to_utc_z_ok _ dt u); [|assumption].
      now rewrite timestamp_text_stripped.
    + exists doc. repeat split; try assumption.
      eapply astimezone_utc_offset; eassumption.
  - intro u. split; [apply utc_text_ends_with_Z|].
    intro H. symmetry. now apply render_utc.
  - intro H.
    change (U "2024-01-05T10:00:00Z")
      with (datetime.utc_text (datetime.mk 2024 1 5 10 0 0 0 (Some 0%Z))).
    apply (to_utc_z_ok _ (datetime.mk 2024 1 5 10 0 0 0 (Some 0%Z)));
      [exact H|reflexivity].
Qed.

End NormalizerFacts.

(** ** Concrete surroundings for the examples *)

Definition env0 : environ := {|
  env_DEFAULT_UNIT := None;
  env_DEFAULT_BRANCH := None;
  QUEUE_PROVIDER := U "sqs";
  DLQ_URL := Some (U "https://sqs.eu-central-1.amazonaws.com/1/prices-dlq");
  env_DB_HOST := Some (U "db");
  env_DB_NAME := Some (U "prices");
  env_DB_USER := Some (U "consumer");
  env_DB_PASSWORD := Some (U "secret")
|}.

(** The same, with [DEFAULT_BRANCH] set to a blank. *)
Definition env_blank_branch : environ := {|
  env_DEFAULT_UNIT := None;
  env_DEFAULT_BRANCH := Some (U " ");
  QUEUE_PROVIDER := U "sqs";
  DLQ_URL := Some (U "https://sqs.eu-central-1.amazonaws.com/1/prices-dlq");
  env_DB_HOST := Some (U "db");
  env_DB_NAME := Some (U "prices");
  env_DB_USER := Some (U "consumer");
  env_DB_PASSWORD := Some (U "secret")
|}.

Definition now0 : datetime.t := datetime.mk 2026 11 5 8 54 0 0 None.

Definition milk : pyval :=
  PDict [(U "product", PStr (U "milk")); (U "unit", PStr (U "l"));
         (U "price", PInt 3)].

(** C5: a witness of [normalize_message_timestamp]: the timestamp of the
    specification's example, a message without timestamp, and a timestamp
    that is no date. *)
Lemma normalize_message_timestamp_witness :
  let d := [(U "provider", PStr (U " Shop "));
            (U "timestamp", PStr (U "2024-01-05T10:00:00+00:00"));
            (U "items", PList [milk])] in
  let bad := [(U "timestamp", PStr (U "yesterday")); (U "items", PList [milk])] in
  datetime.valid now0 = true
  /\ (exists doc,
        normalizer.normalize_message env0 now0 (PDict d) = Ok (PDict doc)
        /\ dict_get "timestamp" doc = PStr (U "2024-01-05T10:00:00Z"))
  /\ (exists doc,
        normalizer.normalize_message env0 now0 (PDict [(U "items", PList [milk])])
        = Ok (PDict doc)
        /\ dict_get "timestamp" doc = PStr (U "2026-11-05T08:54:00Z"))
  /\ normalizer.normalize_message env0 now0 (PDict bad)
     = Raise (mkExc ValueError (U "Invalid isoformat string: 'yesterday'"))
  /\ normalizer._to_utc_z (U "2024-01-05T10:00:00+00:00")
     = Ok (U "2024-01-05T10:00:00Z").
Proof.
  intros d bad. split; [reflexivity|].
  destruct (normalize_message_timestamp env0 now0 d [milk]
              eq_refl eq_refl eq_refl) as (_ & _ & Hts & _ & Hex).
  destruct (normalize_message_timestamp env0 now0 [(U "items", PList [milk])]
              [milk] eq_refl eq_refl eq_refl) as (_ & Hnow & _).
  destruct (normalize_message_timestamp env0 now0 bad [milk]
              eq_refl eq_refl eq_refl) as (Hbad & _).
  split; [|split; [|split]].
  - destruct (Hts (datetime.mk 2024 1 5 10 0 0 0 (Some 0%Z))
                (datetime.mk 2024 1 5 10 0 0 0 (Some 0%Z)))
      as (doc & H1 & H2 & _); try reflexivity; [discriminate|].
    exists doc. split; [exact H1|exact H2].
  - destruct Hnow as (doc & H1 & H2); [reflexivity|].
    exists doc. split; [exact H1|exact H2].
  - apply Hbad. split; [discriminate|]. left. split; reflexivity.
  - apply Hex. reflexivity.
Defined.

(** C5 as stated fails.  A timestamp that [fromisoformat] reads can make
    the conversion to UTC raise: half past midnight of the first day of
    the year 1, one hour east of Greenwich, is an instant of the year 0.
    And with a readable timestamp [normalize_message] raises on items that
    are not a sequence and on an item that is not an object. *)
Lemma normalize_message_other_failures :
  let ts := PStr (U "2024-01-05T10:00:00+00:00") in
  fromisoformat (U "0001-01-01T00:30:00+01:00")
  = Some (datetime.mk 1 1 1 0 30 0 0 (Some 3600000000%Z))
  /\ normalizer.normalize_message env0 now0
       (PDict [(U "timestamp", PStr (U "0001-01-01T00:30:00+01:00"))])
     = Raise (mkExc OverflowError (U "date value out of range"))
  /\ fromisoformat (U "2024-01-05T10:00:00+00:00")
     = Some (datetime.mk 2024 1 5 10 0 0 0 (Some 0%Z))
  /\ normalizer.normalize_message env0 now0
       (PDict [(U "timestamp", ts); (U "items", PInt 5)])
     = Raise (mkExc TypeError (U "'int' object is not iterable"))
  /\ normalizer.normalize_message env0 now0
       (PDict [(U "timestamp", ts); (U "items", PList [PInt 1])])
     = Raise (mkExc AttributeError (U "'int' object has no attribute 'get'")).
Proof. repeat split. Qed.

(** ** A price that is no number, from the message to the validator *)

(** C4: the code at the failing input.  The message below carries a price
    that is NaN, which [json.dumps] writes as the literal [NaN] and
    [json.loads] reads back.  The normalizer keeps the price; the
    normalized document violates rule 6, its price being no number
    [>= 0]; and [validate_doc] raises nothing: the violated rule is not
    reported. *)
Theorem validate_doc_misses_nan_price :
  let msg :=
    PDict [(U "provider", PStr (U "Shop")); (U "branch", PStr (U "b1"));
           (U "type", PStr (U "pricesFull"));
           (U "timestamp", PStr (U "2024-01-05T10:00:00+00:00"));
           (U "items",
            PList [PDict [(U "product", PStr (U "milk"));
                          (U "unit", PStr (U "l"));
                          (U "price", PFloat S754_nan)]])] in
  let d :=
    [(U "provider", PStr (U "shop")); (U "branch", PStr (U "b1"));
     (U "type", PStr (U "pricesFull"));
     (U "timestamp", PStr (U "2024-01-05T10:00:00Z"));
     (U "items",
      PList [PDict [(U "product", PStr (U "milk")); (U "unit", PStr (U "l"));
                    (U "price", PFloat S754_nan)]]);
     (U "src_key", PStr []); (U "etag", PStr [])] in
  consumer._json_loads_maybe_twice (json_dumps msg) = Ok msg
  /\ normalizer.normalize_message env0 now0 msg = Ok (PDict d)
  /\ rules.violations d = [rules.PriceRange 0]
  /\ rules.message (rules.PriceRange 0) = U "item[0].price must be >= 0"
  /\ validator.validate_doc (PDict d) = Ok tt.
Proof. repeat split; vm_compute; reflexivity. Qed.

Lemma rbind_ok_inv {A B} (r : res A) (k : A -> res B) (b : B) :
  rbind r k = Ok b -> exists a, r = Ok a /\ k a = Ok b.
Proof.
  destruct r as [a|e]; cbn [rbind]; intro H; [now exists a|discriminate].
Qed.

Section DefaultBranch.
Context {rt : Runtime} (env : environ).
Import normalizer.

(** The branch of a raw document is absent, empty or white space. *)
Definition branch_blank (d : pydict) : Prop :=
  match dict_lookup (U "branch") d with
  | None => True
  | Some (PStr s) => strip s = []
  | Some _ => False
  end.

Lemma items_violations_item_rules (l : list pyval) (i : nat) (r : rules.rule) :
  In r (rules.items_violations i l) -> r <> rules.Branch.
Proof.
  revert i; induction l as [|it l IH]; intros i H; [destruct H|].
  simpl in H. apply in_app_or in H as [H|H]; [|eauto].
  unfold rules.item_violations in H. apply filter_In in H as [H _].
  simpl in H. intuition (subst; discriminate).
Qed.

(** C8 (amended).  For a raw document whose branch is absent, empty or
    white space, the normalized document carries the configured default
    branch; when that default is not blank, the document satisfies the
    branch rule, the branch test of [validate_doc] adds no message, and,
    when the document violates no other rule, [validate_doc] accepts it. *)
Theorem normalize_message_default_branch (now : datetime.t) (d : pydict)
  (doc : pyval) :
  branch_blank d ->
  normalize_message env now (PDict d) = Ok doc ->
  exists fields,
    doc = PDict fields
    /\ dict_get "branch" fields = PStr (DEFAULT_BRANCH env)
    /\ (DEFAULT_BRANCH env <> [] ->
        rules.doc_holds fields rules.Branch = true
        /\ validator.too_short (dict_get "branch" fields) = false
        /\ ((forall r, In r (rules.violations fields) -> r = rules.Branch) ->
            validator.validate_doc doc = Ok tt)).
Proof.
  intros Hb H. rewrite normalize_message_unfold in H.
  apply rbind_ok_inv in H as (ts & _ & H).
  apply rbind_ok_inv in H as (its & _ & H).
  apply rbind_ok_inv in H as (items & _ & H).
  injection H as <-. eexists. split; [reflexivity|].
  assert (Hblank : _norm_text (dict_get "branch" d) = []).
  { unfold branch_blank in Hb. unfold dict_get, _norm_text.
    destruct (dict_lookup (U "branch") d) as [[| | | |s| |]|]; try easy. }
  set (branch := str_or (_norm_text (dict_get "branch" d)) (DEFAULT_BRANCH env)).
  assert (Eb : branch = DEFAULT_BRANCH env).
  { unfold branch. now rewrite Hblank. }
  split; [now rewrite <- Eb|].
  intro Hne.
  assert (Hholds : rules.nonempty_text (PStr branch) = true).
  { rewrite Eb. unfold rules.nonempty_text, DEFAULT_BRANCH in *.
    rewrite strip_idempotent.
    now destruct (strip (getenv_default (env_DEFAULT_BRANCH env) "default")). }
  split; [exact Hholds|]. split.
  - change (dict_get "branch" _) with (PStr branch).
    rewrite too_short_nonempty. now rewrite Hholds.
  - intro Hothers. apply validate_doc_no_violation.
    match goal with |- rules.violations ?f = [] => set (fields := f) in * end.
    destruct (rules.violations fields) as [|r l] eqn:Ev; [reflexivity|].
    assert (Hr : In r (rules.violations fields)) by (rewrite Ev; now left).
    pose proof (Hothers r (or_introl eq_refl)) as ->.
    exfalso. unfold rules.violations in Hr. apply in_app_or in Hr as [Hin|Hin].
    + apply filter_In in Hin as [_ Hin].
      change (rules.doc_holds _ rules.Branch) with (rules.nonempty_text (PStr branch))
        in Hin.
      now rewrite Hholds in Hin.
    + change (dict_get "items" fields) with (PList items) in Hin.
      now apply items_violations_item_rules in Hin.
Qed.

End DefaultBranch.

(** C8: a witness of [normalize_message_default_branch], a message without
    branch under the built-in default. *)
Lemma normalize_message_default_branch_witness :
  let d := [(U "provider", PStr (U "Shop")); (U "type", PStr (U "pricesFull"));
            (U "timestamp", PStr (U "2024-01-05T10:00:00Z"));
            (U "items", PList [milk])] in
  branch_blank d
  /\ normalizer.DEFAULT_BRANCH env0 = U "default"
  /\ exists doc fields,
       normalizer.normalize_message env0 now0 (PDict d) = Ok doc
       /\ doc = PDict fields
       /\ dict_get "branch" fields = PStr (U "default")
       /\ validator.validate_doc doc = Ok tt.
Proof.
  intro d. split; [exact I|]. split; [reflexivity|].
  destruct (normalizer.normalize_message env0 now0 (PDict d)) as [doc|] eqn:E;
    [|discriminate E].
  destruct (normalize_message_default_branch env0 now0 d doc I E)
    as (fields & Hdoc & Hbranch & Hrule).
  exists doc, fields. split; [reflexivity|]. split; [exact Hdoc|].
  split; [exact Hbranch|].
  destruct (Hrule ltac:(discriminate)) as (_ & _ & Hv).
  apply Hv. injection E as <-. injection Hdoc as <-.
  intros r Hr. vm_compute in Hr. destruct Hr.
Defined.

(** C8 as stated fails: when [DEFAULT_BRANCH] is configured blank, the
    document normalized from a message without branch has the empty
    branch and fails the branch rule. *)
Lemma blank_default_branch_fails :
  let d := [(U "provider", PStr (U "Shop")); (U "type", PStr (U "pricesFull"));
            (U "timestamp", PStr (U "2024-01-05T10:00:00Z"));
            (U "items", PList [milk])] in
  branch_blank d
  /\ exists fields,
       normalizer.normalize_message env_blank_branch now0 (PDict d)
       = Ok (PDict fields)
       /\ dict_get "branch" fields = PStr (normalizer.DEFAULT_BRANCH env_blank_branch)
       /\ validator.validate_doc (PDict fields)
          = Raise (mkExc ValueError (U "'branch' is too short")).
Proof.
  intro d. split; [exact I|]. eexists.
  split; [vm_compute; reflexivity|]. split; vm_compute; reflexivity.
Qed.

(** * db.py: the upsert *)

Section UpsertFacts.
Context {rt : Runtime}.
Import db.
#[local] Arguments key_eqb : simpl never.
#[local] Arguments key_of : simpl never.
#[local] Arguments inserted : simpl never.
#[local] Arguments do_update : simpl never.

(** [updated_at] put aside. *)
Definition forget_updated_at (r : row) : row :=
  mkRow (provider r) (branch r) (doc_type r) (ts r) (product r)
        (unit_ r) (price r) (src_key r) (etag r) 0.

(** The statements of one [executemany], on the table. *)
Definition upsert_all (now : Z) (xs : list excluded) (t : table) : table :=
  fold_left (fun acc x => upsert now x acc) xs t.

(** The parameter tuples the server accepts before the first it rejects,
    and the error of that one. *)
Fixpoint bound_prefix (params : list (list pyval)) : list excluded * option exc :=
  match params with
  | [] => ([], None)
  | p :: tl =>
      match bind_params p with
      | Ok x => let '(xs, e) := bound_prefix tl in (x :: xs, e)
      | Raise e => ([], Some e)
      end
  end.

Definition has_key (k : key) (t : table) : bool :=
  existsb (fun r => key_eqb (key_of r) k) t.

(** Two tables with the same keys, row by row, whose rows are equal except
    the first row of each key of [K]. *)
Fixpoint sim (K : key -> bool) (a b : table) : Prop :=
  match a, b with
  | [], [] => True
  | r :: a', s :: b' =>
      key_of r = key_of s /\ (r = s \/ K (key_of r) = true)
      /\ sim (fun k => K k && negb (key_eqb k (key_of r))) a' b'
  | _, _ => False
  end.

Lemma key_eqb_eq (a b : key) : key_eqb a b = true <-> a = b.
Proof.
  destruct a as [[[[p1 b1] d1] t1] q1], b as [[[[p2 b2] d2] t2] q2].
  unfold key_eqb. rewrite !andb_true_iff, !pystr_eqb_eq, Z.eqb_eq.
  split; [intros [[[[-> ->] ->] ->] ->]; reflexivity|].
  intro H; injection H as -> -> -> -> ->. repeat split.
Qed.

Lemma key_eqb_refl (a : key) : key_eqb a a = true.
Proof. now apply key_eqb_eq. Qed.

Lemma key_eqb_neq (a b : key) : key_eqb a b = false <-> a <> b.
Proof.
  split; intro H.
  - intros ->. now rewrite key_eqb_refl in H.
  - destruct (key_eqb a b) eqn:E; [|reflexivity]. now apply key_eqb_eq in E.
Qed.

Lemma key_eqb_sym (a b : key) : key_eqb a b = key_eqb b a.
Proof.
  destruct (key_eqb a b) eqn:E.
  - apply key_eqb_eq in E as ->. now rewrite key_eqb_refl.
  - symmetry. apply key_eqb_neq. apply key_eqb_neq in E. congruence.
Qed.

Lemma key_of_do_update (now : Z) (x : excluded) (r : row) :
  key_of (do_update now x r) = key_of r.
Proof. reflexivity. Qed.

Lemma key_of_inserted (now : Z) (x : excluded) :
  key_of (inserted now x) = x_key x.
Proof. unfold inserted. now destruct (x_key x) as [[[[p b] d] t] q]. Qed.

Lemma do_update_same_key (now : Z) (x : excluded) (r s : row) :
  key_of r = key_of s -> do_update now x r = do_update now x s.
Proof.
  unfold key_of, do_update. intro H. injection H as -> -> -> -> ->. reflexivity.
Qed.

Lemma do_update_twice (t1 t2 : Z) (x : excluded) (r : row) :
  do_update t2 x (do_update t1 x r) = do_update t2 x r.
Proof. reflexivity. Qed.

(** A second upsert of the same values absorbs the first. *)
Lemma upsert_absorb (t1 t2 : Z) (x : excluded) (t : table) :
  upsert t2 x (upsert t1 x t) = upsert t2 x t.
Proof.
  induction t as [|r t IH]; cbn [upsert].
  - rewrite key_of_inserted, key_eqb_refl.
    unfold do_update, inserted. now destruct (x_key x) as [[[[p b] d] tt] q].
  - destruct (key_eqb (key_of r) (x_key x)) eqn:E; cbn [upsert].
    + now rewrite key_of_do_update, E.
    + now rewrite E, IH.
Qed.

Lemma has_key_upsert (now : Z) (x : excluded) (t : table) :
  has_key (x_key x) (upsert now x t) = true.
Proof.
  induction t as [|r t IH]; cbn [upsert has_key existsb].
  - now rewrite key_of_inserted, key_eqb_refl.
  - destruct (key_eqb (key_of r) (x_key x)) eqn:E; cbn [has_key existsb].
    + now rewrite key_of_do_update, E.
    + rewrite E. exact IH.
Qed.

Lemma has_key_upsert_mono (now : Z) (x : excluded) (k : key) (t : table) :
  has_key k t = true -> has_key k (upsert now x t) = true.
Proof.
  induction t as [|r t IH]; simpl; [discriminate|].
  intro H. destruct (key_eqb (key_of r) (x_key x)); simpl.
  - exact H.
  - apply orb_true_iff in H as [H|H]; [now rewrite H|].
    rewrite (IH H). apply orb_true_r.
Qed.

Lemma has_key_upsert_all (now : Z) (xs : list excluded) (k : key) (t : table) :
  has_key k t = true -> has_key k (upsert_all now xs t) = true.
Proof.
  revert t; induction xs as [|x xs IH]; intros t H; [exact H|].
  apply IH. now apply has_key_upsert_mono.
Qed.

(** Upserts of different keys commute once the first key is in the table. *)
Lemma upsert_comm (t1 t2 : Z) (x y : excluded) (t : table) :
  has_key (x_key x) t = true -> x_key x <> x_key y ->
  upsert t1 x (upsert t2 y t) = upsert t2 y (upsert t1 x t).
Proof.
  intros Hk Hne. induction t as [|r t IH]; [discriminate|].
  simpl in Hk. simpl.
  destruct (key_eqb (key_of r) (x_key x)) eqn:Ex.
  - apply key_eqb_eq in Ex.
    assert (Ey : key_eqb (key_of r) (x_key y) = false)
      by (apply key_eqb_neq; congruence).
    rewrite Ey. simpl.
    now rewrite key_of_do_update, Ey, (proj2 (key_eqb_eq _ _) Ex).
  - simpl in Hk. destruct (key_eqb (key_of r) (x_key y)) eqn:Ey; simpl.
    + now rewrite ?key_of_do_update, Ex, Ey.
    + now rewrite Ex, Ey, (IH Hk).
Qed.

Lemma upsert_all_comm (t1 t2 : Z) (x : excluded) (ys : list excluded) :
  forall t, has_key (x_key x) t = true ->
            (forall y, In y ys -> x_key x <> x_key y) ->
            upsert t1 x (upsert_all t2 ys t) = upsert_all t2 ys (upsert t1 x t).
Proof.
  induction ys as [|y ys IH]; intros t Hk Hne; [reflexivity|].
  cbn [upsert_all fold_left].
  change (fold_left (fun acc x0 => upsert t2 x0 acc) ys (upsert t2 y t))
    with (upsert_all t2 ys (upsert t2 y t)).
  rewrite IH.
  - rewrite upsert_comm by (auto; apply Hne; now left). reflexivity.
  - now apply has_key_upsert_mono.
  - intros z Hz. apply Hne. now right.
Qed.

Lemma sim_weaken (K K' : key -> bool) (a : table) :
  forall b, (forall k, K k = true -> K' k = true) -> sim K a b -> sim K' a b.
Proof.
  revert K K'; induction a as [|r a IH]; intros K K' [|s b] HK H;
    try exact H.
  destruct H as (Hk & Hr & Hs). repeat split; [exact Hk| |].
  - destruct Hr as [Hr|Hr]; [now left|right; now apply HK].
  - eapply IH; [|exact Hs]. intros k Hkk. cbn beta in *.
    apply andb_true_iff in Hkk as [H1 H2]. now rewrite (HK k H1), H2.
Qed.

Lemma sim_refl (K : key -> bool) (a : table) : sim K a a.
Proof.
  revert K; induction a as [|r a IH]; intro K; simpl; auto.
Qed.

Lemma sim_nothing (K : key -> bool) (a : table) :
  forall b, (forall k, K k = false) -> sim K a b -> a = b.
Proof.
  revert K; induction a as [|r a IH]; intros K [|s b] HK H;
    try reflexivity; try destruct H.
  destruct H0 as [[->|Hr] Hs]; [|now rewrite HK in Hr].
  f_equal. eapply IH; [|exact Hs]. intro k. cbn beta. now rewrite HK.
Qed.

(** An upsert closes the difference at its key. *)
Lemma sim_upsert (now : Z) (x : excluded) (a : table) :
  forall K b, sim K a b ->
  sim (fun k => K k && negb (key_eqb k (x_key x)))
      (upsert now x a) (upsert now x b).
Proof.
  induction a as [|r a IH]; intros K [|s b] H; try destruct H.
  - simpl. repeat split. now left.
  - destruct H0 as [Hr Hs]. rename H into Hk. simpl. rewrite <- Hk.
    destruct (key_eqb (key_of r) (x_key x)) eqn:E.
    + simpl. rewrite !key_of_do_update. split; [exact Hk|]. split.
      * left. now apply do_update_same_key.
      * eapply sim_weaken; [|exact Hs]. intros k Hkk. cbn beta in *.
        apply andb_true_iff in Hkk as [H1 H2]. rewrite H1, H2. simpl.
        apply key_eqb_eq in E. now rewrite <- E, H2.
    + simpl. split; [exact Hk|]. split.
      * destruct Hr as [Hr|Hr]; [now left|right].
        now rewrite Hr, E.
      * eapply sim_weaken; [|apply (IH _ _ Hs)]. intros k Hkk. cbn beta in *.
        apply andb_true_iff in Hkk as [Hkk H3].
        apply andb_true_iff in Hkk as [H1 H2]. now rewrite H1, H2, H3.
Qed.

Definition in_keys (xs : list excluded) (k : key) : bool :=
  existsb (fun x => key_eqb k (x_key x)) xs.

Lemma sim_upsert_all (now : Z) (xs : list excluded) :
  forall K a b, sim K a b ->
  sim (fun k => K k && negb (in_keys xs k))
      (upsert_all now xs a) (upsert_all now xs b).
Proof.
  induction xs as [|x xs IH]; intros K a b H.
  - simpl. eapply sim_weaken; [|exact H]. intros k Hk.
    now rewrite Hk.
  - cbn [upsert_all fold_left].
    eapply sim_weaken; [|apply (IH _ _ _ (sim_upsert now x a K b H))].
    intros k Hk. cbn beta in *. apply andb_true_iff in Hk as [Hk H3].
    apply andb_true_iff in Hk as [H1 H2]. rewrite H1.
    unfold in_keys in *. cbn [existsb]. now rewrite negb_orb, H2, H3.
Qed.

(** Differences at keys that are all upserted again disappear. *)
Lemma upsert_all_sim (now : Z) (xs : list excluded) (K : key -> bool)
  (a b : table) :
  (forall k, K k = true -> in_keys xs k = true) -> sim K a b ->
  upsert_all now xs a = upsert_all now xs b.
Proof.
  intros HK H. eapply sim_nothing; [|apply (sim_upsert_all now xs K a b H)].
  intro k. cbn beta. destruct (K k) eqn:E; [|reflexivity].
  now rewrite (HK k E).
Qed.

(** An upsert of a key of the table changes the first row of that key
    only. *)
Lemma sim_upsert_present (now : Z) (x : excluded) (t : table) :
  has_key (x_key x) t = true ->
  sim (fun k => key_eqb k (x_key x)) (upsert now x t) t.
Proof.
  induction t as [|r t IH]; [discriminate|].
  simpl. intro H. destruct (key_eqb (key_of r) (x_key x)) eqn:E; simpl.
  - repeat split; [now right|apply sim_refl].
  - simpl in H. repeat split; [now left|].
    eapply sim_weaken; [|apply (IH H)]. intros k Hk. cbn beta.
    rewrite Hk. simpl. apply key_eqb_eq in Hk. subst k.
    now rewrite key_eqb_sym, E.
Qed.

(** The core of idempotence: the statements of a second [executemany]
    with the same values absorb those of the first. *)
Lemma upsert_all_absorb (t1 t2 : Z) (xs : list excluded) :
  forall t, upsert_all t2 xs (upsert_all t1 xs t) = upsert_all t2 xs t.
Proof.
  induction xs as [|x xs IH]; intro t; [reflexivity|].
  cbn [upsert_all fold_left].
  change (fold_left (fun acc x0 => upsert t1 x0 acc) xs (upsert t1 x t))
    with (upsert_all t1 xs (upsert t1 x t)).
  change (fold_left (fun acc x0 => upsert t2 x0 acc) xs ?a)
    with (upsert_all t2 xs a).
  rewrite <- (IH (upsert t2 x t)).
  destruct (in_keys xs (x_key x)) eqn:Ein.
  - (* the key comes again: what the upsert of [x] leaves is overwritten *)
    assert (E : upsert_all t1 xs (upsert t1 x t) = upsert_all t1 xs (upsert t2 x t)).
    { apply (upsert_all_sim t1 xs (fun k => key_eqb k (x_key x))).
      - intros k Hk. apply key_eqb_eq in Hk. now subst.
      - rewrite <- (upsert_absorb t2 t1 x t) at 1.
        apply sim_upsert_present, has_key_upsert. }
    rewrite E.
    apply (upsert_all_sim t2 xs (fun k => key_eqb k (x_key x))).
    + intros k Hk. apply key_eqb_eq in Hk. now subst.
    + apply sim_upsert_present, has_key_upsert_all, has_key_upsert.
  - (* the key does not come again: the upsert of [x] moves to the front *)
    rewrite upsert_all_comm.
    + now rewrite upsert_absorb.
    + apply has_key_upsert.
    + intros y Hy E. unfold in_keys in Ein.
      assert (existsb (fun x0 => key_eqb (x_key x) (x_key x0)) xs = true).
      { apply existsb_exists. exists y. split; [exact Hy|].
        now apply key_eqb_eq. }
      congruence.
Qed.


Definition result_of (e : option exc) : res unit :=
  match e with
  | None => Ok tt
  | Some e => Raise e
  end.

(** What [executemany] does, case by case. *)
Lemma executemany_cases (params : list (list pyval)) :
  forall now tbl ef cf,
  executemany params (mkConn now tbl ef cf)
  = match params, ef, tbl with
    | [], _, _ => (Ok tt, mkConn now tbl ef cf)
    | _, Some e, _ => (Raise e, mkConn now tbl ef cf)
    | _, None, None =>
        (Raise (db_error "relation price_items does not exist"),
         mkConn now tbl ef cf)
    | _, None, Some t =>
        (result_of (snd (bound_prefix params)),
         mkConn now (Some (upsert_all now (fst (bound_prefix params)) t)) ef cf)
    end.
Proof.
  induction params as [|p ps IH]; intros now tbl ef cf; [reflexivity|].
  cbn [executemany]. unfold execute.
  cbn [exec_fault txn_table txn_now set_table commit_fault].
  destruct ef as [e|]; [reflexivity|].
  destruct tbl as [t|]; [|reflexivity].
  cbn [bound_prefix].
  destruct (bind_params p) as [x|e]; [|reflexivity].
  unfold set_table. cbn [exec_fault txn_table txn_now commit_fault].
  rewrite IH. destruct ps as [|q qs]; [reflexivity|].
  now destruct (bound_prefix (q :: qs)).
Qed.

Lemma upsert_keys (now : Z) (x : excluded) (t : table) :
  exists tl, map key_of (upsert now x t) = map key_of t ++ tl.
Proof.
  induction t as [|r t [tl IH]]; cbn [upsert map].
  - now exists [key_of (inserted now x)].
  - destruct (key_eqb (key_of r) (x_key x)); cbn [map].
    + exists []. now rewrite key_of_do_update, app_nil_r.
    + exists tl. now rewrite IH.
Qed.

Lemma upsert_all_keys (now : Z) (xs : list excluded) :
  forall t, exists tl, map key_of (upsert_all now xs t) = map key_of t ++ tl.
Proof.
  induction xs as [|x xs IH]; intro t.
  - exists []. now rewrite app_nil_r.
  - cbn [upsert_all fold_left].
    destruct (IH (upsert now x t)) as [tl1 E1].
    destruct (upsert_keys now x t) as [tl2 E2].
    exists (tl2 ++ tl1). unfold upsert_all in E1. now rewrite E1, E2, app_assoc.
Qed.

(** The rows a table had keep their place and their key columns. *)
Lemma upsert_all_keeps_keys (now : Z) (xs : list excluded) (t : table) :
  map key_of (firstn (length t) (upsert_all now xs t)) = map key_of t.
Proof.
  destruct (upsert_all_keys now xs t) as [tl E].
  rewrite <- firstn_map, E, <- (length_map key_of t).
  rewrite firstn_app, Nat.sub_diag, firstn_O, app_nil_r.
  now apply firstn_all.
Qed.

Lemma upsert_forget (t1 t2 : Z) (x : excluded) (a : table) :
  forall b, map forget_updated_at a = map forget_updated_at b ->
  map forget_updated_at (upsert t1 x a) = map forget_updated_at (upsert t2 x b).
Proof.
  induction a as [|r a IH]; intros [|s b] H; try discriminate.
  { cbn [upsert map]. unfold forget_updated_at, inserted.
    now destruct (x_key x) as [[[[? ?] ?] ?] ?]. }
  cbn [map] in H. injection H as E1 E2 E3 E4 E5 E6 E7 E8 E9 Hab.
  assert (Hr : forget_updated_at r = forget_updated_at s)
    by (unfold forget_updated_at; congruence).
  assert (Hk : key_of r = key_of s) by (unfold key_of; congruence).
  cbn [upsert]. rewrite Hk.
  destruct (key_eqb (key_of s) (x_key x)); cbn [map].
  - f_equal; [|exact Hab].
    unfold forget_updated_at, do_update. cbn. congruence.
  - f_equal; [exact Hr|now apply IH].
Qed.

Lemma upsert_all_forget (t1 t2 : Z) (xs : list excluded) :
  forall a b, map forget_updated_at a = map forget_updated_at b ->
  map forget_updated_at (upsert_all t1 xs a)
  = map forget_updated_at (upsert_all t2 xs b).
Proof.
  induction xs as [|x xs IH]; intros a b H; [exact H|].
  cbn [upsert_all fold_left]. apply IH. now apply upsert_forget.
Qed.

(** What [upsert_rows] does, case by case. *)
Lemma upsert_rows_cases (rows : list pyval) (now : Z) (tbl : option table)
  (ef cf : option exc) :
  upsert_rows (mkConn now tbl ef cf) rows
  = match rows with
    | [] => (Ok 0, mkConn now tbl ef cf)
    | _ =>
        match map_res params_of rows with
        | Raise e => (Raise e, mkConn now tbl ef cf)
        | Ok params =>
            match params, ef, tbl with
            | [], _, _ => (Ok 0, mkConn now tbl ef cf)
            | _, Some e, _ => (Raise e, mkConn now tbl ef cf)
            | _, None, None =>
                (Raise (db_error "relation price_items does not exist"),
                 mkConn now tbl ef cf)
            | _, None, Some t =>
                (match snd (bound_prefix params) with
                 | None => Ok (length params)
                 | Some e => Raise e
                 end,
                 mkConn now (Some (upsert_all now (fst (bound_prefix params)) t))
                        ef cf)
            end
        end
    end.
Proof.
  destruct rows as [|r rows]; [reflexivity|].
  unfold upsert_rows.
  destruct (map_res params_of (r :: rows)) as [params|e]; [|reflexivity].
  rewrite executemany_cases.
  destruct params as [|p ps]; [reflexivity|].
  destruct ef; [reflexivity|]. destruct tbl; [|reflexivity].
  now destruct (snd (bound_prefix (p :: ps))).
Qed.

(** The excluded rows of a batch whose parameters the server accepts. *)
Lemma bound_prefix_all (params : list (list pyval)) (xs : list excluded) :
  map_res bind_params params = Ok xs -> bound_prefix params = (xs, None).
Proof.
  revert xs; induction params as [|p ps IH]; intros xs H.
  - now injection H as <-.
  - cbn [map_res] in H. cbn [bound_prefix].
    destruct (bind_params p) as [x|e]; [|discriminate].
    cbn [rbind] in H.
    destruct (map_res bind_params ps) as [ys|e]; [|discriminate].
    cbn [rbind] in H. injection H as <-. now rewrite (IH ys eq_refl).
Qed.

(** A batch the server accepts: one upsert per row, in order. *)
Lemma upsert_rows_accepted (c : conn) (rows : list pyval)
  (params : list (list pyval)) (xs : list excluded) (t : table) :
  exec_fault c = None -> txn_table c = Some t ->
  map_res params_of rows = Ok params -> map_res bind_params params = Ok xs ->
  upsert_rows c rows
  = (Ok (length rows), set_table c (Some (upsert_all (txn_now c) xs t))).
Proof.
  destruct c as [now tbl ef cf]. cbn [exec_fault txn_table txn_now].
  intros -> -> Hp Hx. rewrite upsert_rows_cases.
  assert (Hlen : length params = length rows).
  { clear Hx. revert params Hp.
    induction rows as [|r rows IH]; intros params Hp.
    - now injection Hp as <-.
    - cbn [map_res] in Hp. destruct (params_of r); [|discriminate].
      cbn [rbind] in Hp.
      destruct (map_res params_of rows) as [ps|]; [|discriminate].
      cbn [rbind] in Hp. injection Hp as <-. cbn [length].
      now rewrite (IH ps eq_refl). }
  destruct rows as [|r rows].
  - injection Hp as <-. injection Hx as <-. reflexivity.
  - rewrite Hp. destruct params as [|p ps]; [discriminate Hlen|].
    rewrite (bound_prefix_all _ _ Hx). cbn [fst snd]. now rewrite Hlen.
Qed.

(** The update of a conflicting row: the first row of the table with the
    key of the excluded row keeps its key columns and takes the other
    columns of the excluded row and the time of the transaction; no other
    row changes. *)
Lemma upsert_conflict (now : Z) (x : excluded) (pre : table) (r : row)
  (post : table) :
  key_of r = x_key x -> (forall q, In q pre -> key_of q <> x_key x) ->
  upsert now x (pre ++ r :: post)
  = pre ++ mkRow (provider r) (branch r) (doc_type r) (ts r) (product r)
                 (x_unit x) (x_price x) (x_src_key x) (x_etag x) now :: post.
Proof.
  intros Hr Hpre. induction pre as [|q pre IH]; cbn [app upsert].
  - rewrite Hr, key_eqb_refl. reflexivity.
  - assert (Hq : key_eqb (key_of q) (x_key x) = false)
      by (apply key_eqb_neq, Hpre; now left).
    rewrite Hq, IH; [reflexivity|]. intros q' Hin. apply Hpre. now right.
Qed.

(** The insert of a row whose key the table does not have: the table
    gets one more row, that of the excluded row. *)
Lemma upsert_fresh (now : Z) (x : excluded) (t : table) :
  (forall q, In q t -> key_of q <> x_key x) ->
  exists r,
    upsert now x t = t ++ [r]
    /\ key_of r = x_key x /\ unit_ r = x_unit x /\ price r = x_price x
    /\ src_key r = x_src_key x /\ etag r = x_etag x /\ updated_at r = now.
Proof.
  intro Ht. exists (inserted now x). split.
  - induction t as [|q t IH]; cbn [app upsert]; [reflexivity|].
    assert (Hq : key_eqb (key_of q) (x_key x) = false)
      by (apply key_eqb_neq, Ht; now left).
    rewrite Hq, IH; [reflexivity|]. intros q' Hin. apply Ht. now right.
  - unfold inserted, key_of. destruct (x_key x) as [[[[p b] d] ts] q].
    repeat split.
Qed.

(** C1.  A second [upsert_rows] with the same rows, at a later time [t2],
    leaves the table as a single [upsert_rows] at [t2] does and returns the
    same result; the table differs from the one after the first call in
    [updated_at] only; and an upsert keeps every row the table had in its
    place with its key columns (provider, branch, doc_type, ts, product).
    A batch the server accepts is one upsert per row, in order; on a row
    whose key the table has, an upsert overwrites unit, price, src_key and
    etag of the row of that key with those of the new row and [updated_at]
    with the time of the transaction, and nothing else; on a row whose key
    is new it adds that row at the end. *)
Theorem upsert_rows_idempotent (c : conn) (rows : list pyval) (t2 : Z) :
  let c1 := snd (upsert_rows c rows) in
  let c2 := snd (upsert_rows (set_now c1 t2) rows) in
  upsert_rows (set_now c1 t2) rows = upsert_rows (set_now c t2) rows
  /\ option_map (map forget_updated_at) (txn_table c2)
     = option_map (map forget_updated_at) (txn_table c1)
  /\ (forall t, txn_table c = Some t ->
      exists t1, txn_table c1 = Some t1
                 /\ map key_of (firstn (length t) t1) = map key_of t)
  /\ (forall params xs t,
        exec_fault c = None -> txn_table c = Some t ->
        map_res params_of rows = Ok params ->
        map_res bind_params params = Ok xs ->
        upsert_rows c rows
        = (Ok (length rows),
           set_table c (Some (fold_left (fun acc x => upsert (txn_now c) x acc)
                                        xs t))))
  /\ (forall now x pre r post,
        key_of r = x_key x -> (forall q, In q pre -> key_of q <> x_key x) ->
        upsert now x (pre ++ r :: post)
        = pre ++ mkRow (provider r) (branch r) (doc_type r) (ts r) (product r)
                       (x_unit x) (x_price x) (x_src_key x) (x_etag x) now
              :: post)
  /\ (forall now x t,
        (forall q, In q t -> key_of q <> x_key x) ->
        exists r,
          upsert now x t = t ++ [r]
          /\ key_of r = x_key x /\ unit_ r = x_unit x /\ price r = x_price x
          /\ src_key r = x_src_key x /\ etag r = x_etag x
          /\ updated_at r = now).
Proof.
  cbv zeta.
  split; [|split; [|split; [|split; [|split]]]];
    [| | |intros params xs t; now apply upsert_rows_accepted
     |apply upsert_conflict|apply upsert_fresh].
  all: destruct c as [now tbl ef cf].
  all: rewrite (upsert_rows_cases rows now).
  all: assert (Hkeep : forall t : table,
            tbl = Some t ->
            exists t1, tbl = Some t1
                       /\ map key_of (firstn (length t) t1) = map key_of t)
    by (intros t ->; exists t; split; [reflexivity|]; now rewrite firstn_all).
  all: destruct rows as [|r rows]; [easy|].
  all: destruct (map_res params_of (r :: rows)) as [params|e] eqn:Ep;
    [|cbn [snd]; unfold set_now;
      cbn [txn_now txn_table exec_fault commit_fault];
      rewrite ?upsert_rows_cases, ?Ep; easy].
  all: destruct params as [|p ps];
    [cbn [snd]; unfold set_now;
     cbn [txn_now txn_table exec_fault commit_fault];
     rewrite ?upsert_rows_cases, ?Ep; easy|].
  all: destruct ef as [e|];
    [cbn [snd]; unfold set_now;
     cbn [txn_now txn_table exec_fault commit_fault];
     rewrite ?upsert_rows_cases, ?Ep; easy|].
  all: destruct tbl as [t|];
    [|cbn [snd]; unfold set_now;
      cbn [txn_now txn_table exec_fault commit_fault];
      rewrite ?upsert_rows_cases, ?Ep; easy].
  all: cbn [snd]; unfold set_now;
    cbn [txn_now txn_table exec_fault commit_fault];
    rewrite ?upsert_rows_cases, ?Ep;
    set (xs := fst (bound_prefix (p :: ps)));
    cbn [snd txn_table option_map].
  - now rewrite upsert_all_absorb.
  - f_equal. rewrite upsert_all_absorb. apply upsert_all_forget. reflexivity.
  - intros t' E. injection E as <-. eexists. split; [reflexivity|].
    apply upsert_all_keeps_keys.
Qed.

End UpsertFacts.

(** ** A concrete table *)

(** The row [doc_to_rows] makes of an item of the shop's price list of
    2024-01-05. *)
Definition shop_row (product unit_ : string) (price : pyfloat) : pyval :=
  PDict [(U "provider", PStr (U "shop")); (U "branch", PStr (U "b1"));
         (U "doc_type", PStr (U "pricesFull"));
         (U "ts", PStr (U "2024-01-05T10:00:00Z"));
         (U "product", PStr (U product)); (U "unit", PStr (U unit_));
         (U "price", PFloat price); (U "src_key", PStr (U "k2"));
         (U "etag", PNone)].

(** The same item as the table stores it. *)
Definition stored_row (product unit_ : string) (price : pyfloat)
  (src_key : string) (updated_at : Z) : db.row :=
  db.mkRow (U "shop") (U "b1") (U "pricesFull") 63840045600000000
           (U product) (U unit_) price (Some (U src_key)) None updated_at.

Definition f_two : pyfloat := S754_finite false 4503599627370496 (-51).

(** C1: a witness of [upsert_rows_idempotent].  The table has milk at the
    price 1; a batch with milk at the price 2 and with tea, upserted at
    the time 100, overwrites the row of milk and adds one for tea; the
    same batch upserted again at the time 200 changes [updated_at] only,
    and leaves the table a single upsert at the time 200 leaves. *)
Lemma upsert_rows_idempotent_witness :
  let c := db.mkConn 100 (Some [stored_row "milk" "l" f_one "k1" 50]) None None in
  let rows := [shop_row "milk" "2l" f_two; shop_row "tea" "g" f_one] in
  let c1 := snd (db.upsert_rows c rows) in
  let c2 := snd (db.upsert_rows (db.set_now c1 200) rows) in
  db.upsert_rows c rows = (Ok 2, c1)
  /\ db.txn_table c1 = Some [stored_row "milk" "2l" f_two "k2" 100;
                             stored_row "tea" "g" f_one "k2" 100]
  /\ db.upsert_rows (db.set_now c1 200) rows
     = db.upsert_rows (db.set_now c 200) rows
  /\ db.txn_table c2 = Some [stored_row "milk" "2l" f_two "k2" 200;
                             stored_row "tea" "g" f_one "k2" 200]
  /\ option_map (map forget_updated_at) (db.txn_table c2)
     = option_map (map forget_updated_at) (db.txn_table c1).
Proof.
  intros c rows c1 c2.
  destruct (upsert_rows_idempotent c rows 200) as (H1 & H2 & _ & H4 & _).
  set (params := [[PStr (U "shop"); PStr (U "b1"); PStr (U "pricesFull");
                   PStr (U "2024-01-05T10:00:00Z"); PStr (U "milk");
                   PStr (U "2l"); PFloat f_two; PStr (U "k2"); PNone];
                  [PStr (U "shop"); PStr (U "b1"); PStr (U "pricesFull");
                   PStr (U "2024-01-05T10:00:00Z"); PStr (U "tea");
                   PStr (U "g"); PFloat f_one; PStr (U "k2"); PNone]]).
  set (xs := [@db.mkExcluded ref_runtime
                (U "shop", U "b1", U "pricesFull", 63840045600000000%Z,
                 U "milk") (U "2l") f_two (Some (U "k2")) None;
              @db.mkExcluded ref_runtime
                (U "shop", U "b1", U "pricesFull", 63840045600000000%Z,
                 U "tea") (U "g") f_one (Some (U "k2")) None]).
  assert (Hp : map_res db.params_of rows = Ok params)
    by (vm_compute; reflexivity).
  assert (Hx : map_res db.bind_params params = Ok xs) by reflexivity.
  pose proof (H4 params xs _ eq_refl eq_refl Hp Hx) as E.
  split; [|split; [|split; [|split]]].
  - exact E.
  - reflexivity.
  - exact H1.
  - reflexivity.
  - exact H2.
Defined.
